(** * MediTrack+ intake server (src/main.py): model and verified properties

    The Flask application keeps two JSON files on disk, an intake log
    ([user_data.json]) and a single result slot ([ai_recommendations.json]),
    and relays every submission to one outbound webhook.  The route handlers
    are embedded here as computations in a small state-and-exception monad
    over a world made of the file system and a trace of observable effects.

    Conventions of the model:
    - a JSON value is what [json.load] / [request.get_json] hands to Python;
      a Python [dict] with string keys is a [gmap string json]; a Python
      [str] is held as its UTF-8 bytes, and [len] and [x[-1]] work on its
      code points;
    - a file is absent, or holds a JSON text, or holds text that is not JSON
      ([json.JSONDecodeError]), or holds bytes that are not UTF-8
      ([UnicodeDecodeError], an exception none of the narrow handlers names);
    - writing a file always succeeds, and [json.dump] followed by
      [json.load] gives the value back;
    - what a request draws from outside (the uuid, the clock, the answer of
      the webhook) is an argument of the handler; [uuid.uuid4] itself is a
      generator whose successive values never repeat;
    - logging, CORS, the static page and [/health] are left out. *)

From stdpp Require Import gmap strings list fin_maps pretty.
From Stdlib Require Import ZArith Lia.

Open Scope string_scope.
Open Scope list_scope.
Open Scope Z_scope.

(** ** JSON values as Python sees them *)

(** A Python float; only its truth value is ever inspected. *)
Inductive pyfloat : Type :=
  | FNan
  | FInf (negative : bool)
  | FFinite (negative : bool) (mantissa : N) (exponent : Z).

#[local] Unset Elimination Schemes.
Inductive json : Type :=
  | JNull
  | JBool (b : bool)
  | JInt (z : Z)
  | JFloat (f : pyfloat)
  | JStr (s : string)
  | JList (l : list json)
  | JDict (m : gmap string json).
#[local] Set Elimination Schemes.

#[global] Instance JStr_inj : Inj (=) (=) JStr.
Proof. by intros s1 s2 [= ->]. Qed.

Definition isinstance_list (j : json) : bool :=
  match j with JList _ => true | _ => false end.

Definition isinstance_dict (j : json) : bool :=
  match j with JDict _ => true | _ => false end.

(** [bool(x)]: the truth value used by [not x] and [x and y]. *)
Definition truthy (j : json) : bool :=
  match j with
  | JNull => false
  | JBool b => b
  | JInt z => negb (z =? 0)
  | JFloat (FFinite _ m _) => negb (m =? 0)%N
  | JFloat _ => true
  | JStr s => negb (String.eqb s "")
  | JList l => match l with [] => false | _ => true end
  | JDict m => negb (bool_decide (m = ∅))
  end.

(** [type(x).__name__], as it appears in the interpreter's messages. *)
Definition type_name (j : json) : string :=
  match j with
  | JNull => "NoneType"
  | JBool _ => "bool"
  | JInt _ => "int"
  | JFloat _ => "float"
  | JStr _ => "str"
  | JList _ => "list"
  | JDict _ => "dict"
  end.

(** A byte [10xxxxxx], which continues a code point in UTF-8. *)
Definition is_continuation (c : Ascii.ascii) : bool :=
  match c with
  | Ascii.Ascii _ _ _ _ _ _ b6 b7 => b7 && negb b6
  end.

Fixpoint only_continuation (s : string) : bool :=
  match s with
  | EmptyString => true
  | String c rest => is_continuation c && only_continuation rest
  end.

(** The number of code points of a string: [len(s)]. *)
Fixpoint code_points (s : string) : nat :=
  match s with
  | EmptyString => 0%nat
  | String c rest =>
      ((if is_continuation c then 0 else 1) + code_points rest)%nat
  end.

(** The last code point of a string, as a string: [s[-1]]. *)
Fixpoint string_last (s : string) : string :=
  match s with
  | EmptyString => EmptyString
  | String c rest =>
      if only_continuation rest then String c rest else string_last rest
  end.

(** ** Exceptions *)

Inductive exn : Type :=
  | FileNotFoundError (filename : string)
  | JSONDecodeError (msg : string)
  | UnicodeDecodeError (msg : string)
  | TypeError (msg : string)
  | KeyError (key : string)
  | IndexError (msg : string)
  | AttributeError (msg : string)
  | RequestException (msg : string).

(** [str(e)] *)
Definition str_exn (e : exn) : string :=
  match e with
  | FileNotFoundError f => "[Errno 2] No such file or directory: '" +:+ f +:+ "'"
  | JSONDecodeError m | UnicodeDecodeError m | TypeError m
  | IndexError m | AttributeError m | RequestException m => m
  | KeyError k => k
  end.

(** ** The world: files on disk and the trace of effects *)

(** [Text j]: a document that [json.load] reads as the value [j].
    [Garbled]: text on which [json.load] raises [JSONDecodeError].
    [Undecodable]: content on which the read raises an exception that neither
    narrow handler names; bytes that are not UTF-8 stand for all of them. *)
Inductive fcontent : Type :=
  | Text (j : json)
  | Garbled (msg : string)
  | Undecodable (msg : string).

Inductive event : Type :=
  | EvWrite (filename : string) (j : json)
  | EvPost (url : string) (payload : json) (timeout : Z).

Record world : Type := World {
  files : gmap string fcontent;
  trace : list event
}.

Inductive outcome (A : Type) : Type :=
  | Ret (a : A)
  | Raise (e : exn).
Arguments Ret {A} a.
Arguments Raise {A} e.

Definition M (A : Type) : Type := world → outcome A * world.

#[global] Instance M_ret : MRet M := λ A a w, (Ret a, w).

#[global] Instance M_bind : MBind M := λ A B f m w,
  match m w with
  | (Ret a, w') => f a w'
  | (Raise e, w') => (Raise e, w')
  end.

Definition raise {A} (e : exn) : M A := λ w, (Raise e, w).

(** [try: m  except <classes selected by h>: ...]; [h] answers [None] for an
    exception its clauses do not name, which then propagates. *)
Definition try_except {A} (m : M A) (h : exn → option (M A)) : M A := λ w,
  match m w with
  | (Ret a, w') => (Ret a, w')
  | (Raise e, w') =>
      match h e with
      | Some k => k w'
      | None => (Raise e, w')
      end
  end.

(** [with open(name, 'r') as f] *)
Definition open_r (name : string) : M fcontent := λ w,
  match files w !! name with
  | Some c => (Ret c, w)
  | None => (Raise (FileNotFoundError name), w)
  end.

(** [json.load(f)] *)
Definition json_load (c : fcontent) : M json :=
  match c with
  | Text j => mret j
  | Garbled msg => raise (JSONDecodeError msg)
  | Undecodable msg => raise (UnicodeDecodeError msg)
  end.

(** [with open(name, 'w') as f: json.dump(j, f)] *)
Definition write_dump (name : string) (j : json) : M unit := λ w,
  (Ret tt, World (<[name := Text j]> (files w)) (trace w ++ [EvWrite name j])).

(** ** Python operations that may raise *)

(** [len(x)] *)
Definition py_len (j : json) : M Z :=
  match j with
  | JStr s => mret (Z.of_nat (code_points s))
  | JList l => mret (Z.of_nat (length l))
  | JDict m => mret (Z.of_nat (size m))
  | _ => raise (TypeError ("object of type '" +:+ type_name j +:+ "' has no len()"))
  end.

(** [x[-1]] *)
Definition py_getitem_last (j : json) : M json :=
  match j with
  | JList l =>
      match last l with
      | Some x => mret x
      | None => raise (IndexError "list index out of range")
      end
  | JStr s =>
      if String.eqb s "" then raise (IndexError "string index out of range")
      else mret (JStr (string_last s))
  | JDict _ => raise (KeyError "-1")
  | _ => raise (TypeError ("'" +:+ type_name j +:+ "' object is not subscriptable"))
  end.

(** [x.get(key, default)] *)
Definition py_get (j : json) (key : string) (default : json) : M json :=
  match j with
  | JDict m => mret (from_option id default (m !! key))
  | _ => raise (AttributeError
                  ("'" +:+ type_name j +:+ "' object has no attribute 'get'"))
  end.

(** [x[key] = v] with a string key.  On success the object is a dict, and the
    statements that follow work on that dict. *)
Definition py_setitem (j : json) (key : string) (v : json) : M (gmap string json) :=
  match j with
  | JDict m => mret (<[key := v]> m)
  | JList _ => raise (TypeError "list indices must be integers or slices, not str")
  | _ => raise (TypeError
                  ("'" +:+ type_name j +:+ "' object does not support item assignment"))
  end.

(** ** HTTP responses of the application *)

Record response : Type := Response {
  body : json;
  status : Z
}.

(** [jsonify(x), code] *)
Definition jsonify (j : json) (code : Z) : response := Response j code.

(** ** Configuration (src/main.py lines 15-17) *)

Definition DATA_FILE : string := "user_data.json".
Definition AI_RESPONSE_FILE : string := "ai_recommendations.json".
Definition N8N_REMINDER_WEBHOOK : string :=
  "https://h12user.app.n8n.cloud/webhook/webhook-test/medical-analysis".

(** ** initialize_data_files (src/main.py lines 19-23) *)

(** [os.path.exists(name)] *)
Definition os_path_exists (name : string) : M bool := λ w,
  (Ret (bool_decide (is_Some (files w !! name))), w).

(** [for x in xs: body] *)
Fixpoint for_each {A} (xs : list A) (body : A → M unit) : M unit :=
  match xs with
  | [] => mret tt
  | x :: xs' => body x;; for_each xs' body
  end.

Definition initialize_data_files : M unit :=
  for_each [DATA_FILE; AI_RESPONSE_FILE] (λ file,
    present ← os_path_exists file;
    if negb present
    then write_dump file (if String.eqb file DATA_FILE then JList [] else JDict ∅)
    else mret tt).

(** ** format_ai_response (src/main.py lines 25-45) *)

Definition format_ai_response (raw : json) : M json :=
  try_except
    (nonempty_list ← (if isinstance_list raw
                      then n ← py_len raw; mret (0 <? n)
                      else mret false);
     raw ← (if nonempty_list : bool then py_getitem_last raw else mret raw);
     if negb (isinstance_dict raw) then mret (JDict ∅)
     else
       predicted_condition ← py_get raw "predicted_condition" (JStr "Analysis pending...");
       medication_alerts ← py_get raw "medication_alerts" (JList []);
       home_remedies ← py_get raw "home_remedies" (JList []);
       diet_plan ← py_get raw "diet_plan" (JList []);
       youtube_videos ← py_get raw "youtube_videos" (JList []);
       mret (JDict (<["predicted_condition" := predicted_condition]>
                    (<["medication_alerts" := medication_alerts]>
                     (<["home_remedies" := home_remedies]>
                      (<["diet_plan" := diet_plan]>
                       (<["youtube_videos" := youtube_videos]> ∅)))))))
    (λ _, Some (mret (JDict ∅))).

(** ** The outside of a submission: uuid, clock and webhook *)

Record http_reply : Type := HttpReply {
  status_code : Z;
  reason : string;
  url : string
}.

Inductive net_outcome : Type :=
  | TransportFailure (msg : string)   (* ConnectionError, Timeout, ... *)
  | Replied (r : http_reply).

Record env : Type := Env {
  uuid4 : string;       (* str(uuid.uuid4()) *)
  now_1 : string;       (* first datetime.now().isoformat() *)
  now_2 : string;       (* second datetime.now().isoformat() *)
  webhook : net_outcome (* what the one outbound call meets *)
}.

(** [requests.post(url, json=payload, timeout=t, headers=...)]: one call on
    the network, recorded in the trace whether or not it succeeds. *)
Definition requests_post (net : net_outcome) (target : string) (payload : json)
    (timeout : Z) : M http_reply := λ w,
  let w' := World (files w) (trace w ++ [EvPost target payload timeout]) in
  match net with
  | TransportFailure msg => (Raise (RequestException msg), w')
  | Replied r => (Ret r, w')
  end.

(** [Response.raise_for_status()] of the requests library: an [HTTPError]
    (a [RequestException]) for a 4xx or 5xx status, nothing otherwise. *)
Definition raise_for_status (r : http_reply) : M unit :=
  if (400 <=? status_code r) && (status_code r <? 500) then
    raise (RequestException (pretty (status_code r) +:+ " Client Error: "
                             +:+ reason r +:+ " for url: " +:+ url r))
  else if (500 <=? status_code r) && (status_code r <? 600) then
    raise (RequestException (pretty (status_code r) +:+ " Server Error: "
                             +:+ reason r +:+ " for url: " +:+ url r))
  else mret tt.

(** [d[key]] on a dict *)
Definition dict_getitem (d : gmap string json) (key : string) : M json :=
  match d !! key with
  | Some v => mret v
  | None => raise (KeyError ("'" +:+ key +:+ "'"))
  end.

(** [x.append(v)] *)
Definition py_append (j : json) (v : json) : M json :=
  match j with
  | JList l => mret (JList (l ++ [v]))
  | _ => raise (AttributeError
                  ("'" +:+ type_name j +:+ "' object has no attribute 'append'"))
  end.

(** ** POST /submit: save_and_trigger (src/main.py lines 55-123) *)

Definition save_and_trigger (request_json : json) (e : env) : M response :=
  try_except
    (new_user_data ← py_setitem request_json "user_id" (JStr (uuid4 e));
     let new_user_data := <["timestamp" := JStr (now_1 e)]> new_user_data in
     let new_user_data := <["server_received_at" := JStr (now_2 e)]> new_user_data in
     let new_user_data :=
       match new_user_data !! "medications" with
       | None => <["medications" := JList []]> new_user_data
       | Some _ => new_user_data
       end in
     data ← try_except
              (f ← open_r DATA_FILE;
               try_except
                 (data ← json_load f;
                  if negb (isinstance_list data) then mret (JList [])
                  else mret data)
                 (λ x, match x with
                       | JSONDecodeError _ => Some (mret (JList []))
                       | _ => None
                       end))
              (λ x, match x with
                    | FileNotFoundError _ => Some (mret (JList []))
                    | _ => None
                    end);
     data ← py_append data (JDict new_user_data);
     write_dump DATA_FILE data;;
     write_dump AI_RESPONSE_FILE (JDict ∅);;
     try_except
       (webhook_response ← requests_post (webhook e) N8N_REMINDER_WEBHOOK
                             (JDict new_user_data) 30;
        raise_for_status webhook_response;;
        user_id ← dict_getitem new_user_data "user_id";
        mret (jsonify (JDict (<["success" := JBool true]>
                              (<["message" := JStr "Data saved and AI analysis triggered"]>
                               (<["user_id" := user_id]> ∅)))) 200))
       (λ x, match x with
             | RequestException _ =>
                 Some (mret (jsonify
                   (JDict (<["success" := JBool true]>
                           (<["message" := JStr "Data saved but AI analysis failed to trigger"]>
                            (<["error" := JStr (str_exn x)]> ∅)))) 202))
             | _ => None
             end))
    (λ x, Some (mret (jsonify
       (JDict (<["success" := JBool false]>
               (<["error" := JStr "Failed to process submission"]>
                (<["details" := JStr (str_exn x)]> ∅)))) 500))).

(** ** GET /get-ai-response and its alias (src/main.py lines 125-156) *)

Definition get_ai_response : M response :=
  try_except
    (f ← open_r AI_RESPONSE_FILE;
     ai_data ← json_load f;
     nothing_meaningful ← (if negb (truthy ai_data) then mret true
                           else if isinstance_dict ai_data
                                then n ← py_len ai_data; mret (n =? 0)
                                else mret false);
     if nothing_meaningful : bool then mret (jsonify (JDict ∅) 200)
     else
       formatted_response ← format_ai_response ai_data;
       mret (jsonify formatted_response 200))
    (λ x, match x with
          | FileNotFoundError _ => Some (mret (jsonify (JDict ∅) 200))
          | JSONDecodeError _ => Some (mret (jsonify (JDict ∅) 200))
          | _ => Some (mret (jsonify
                   (JDict {["error" := JStr "Could not load AI response"]}) 500))
          end).

Definition get_recommendations : M response := get_ai_response.

(** ** POST /save-ai-response (src/main.py lines 159-173) *)

Definition save_ai_response (request_json : json) : M response :=
  try_except
    (write_dump AI_RESPONSE_FILE request_json;;
     mret (jsonify (JDict (<["success" := JBool true]>
                           (<["message" := JStr "AI response saved"]> ∅))) 200))
    (λ x, Some (mret (jsonify
       (JDict (<["success" := JBool false]>
               (<["error" := JStr (str_exn x)]> ∅))) 500))).

(** ** GET /debug/latest-user (src/main.py lines 175-188) *)

Definition get_latest_user : M response :=
  try_except
    (f ← open_r DATA_FILE;
     data ← json_load f;
     has_data ← (if truthy data
                 then n ← py_len data; mret (0 <? n)
                 else mret false);
     if has_data : bool then
       latest ← py_getitem_last data;
       mret (jsonify latest 200)
     else
       mret (jsonify (JDict {["message" := JStr "No user data found"]}) 404))
    (λ x, Some (mret (jsonify (JDict {["error" := JStr (str_exn x)]}) 500))).

(** ** GET /debug/ai-response (src/main.py lines 190-198) *)

Definition debug_ai_response : M response :=
  try_except
    (f ← open_r AI_RESPONSE_FILE;
     data ← json_load f;
     mret (jsonify data 200))
    (λ x, Some (mret (jsonify (JDict {["error" := JStr (str_exn x)]}) 500))).

(** ** The server as a whole: requests handled one after the other *)

Inductive request : Type :=
  | Submit (request_json : json) (e : env)
  | GetAiResponse
  | GetRecommendations
  | SaveAiResponse (request_json : json)
  | DebugLatestUser
  | DebugAiResponse.

Definition handle (r : request) : M response :=
  match r with
  | Submit j e => save_and_trigger j e
  | GetAiResponse => get_ai_response
  | GetRecommendations => get_recommendations
  | SaveAiResponse j => save_ai_response j
  | DebugLatestUser => get_latest_user
  | DebugAiResponse => debug_ai_response
  end.

(** Every handler ends in a catch-all, so Flask always gets a response; the
    generic 500 of the error handler (lines 204-206) stands for an exception
    that would escape. *)
Definition serve (r : request) (w : world) : response * world :=
  match handle r w with
  | (Ret resp, w') => (resp, w')
  | (Raise _, w') =>
      (jsonify (JDict {["error" := JStr "Internal server error"]}) 500, w')
  end.

Fixpoint run (rs : list request) (w : world) : list response * world :=
  match rs with
  | [] => ([], w)
  | r :: rs' =>
      let '(resp, w1) := serve r w in
      let '(resps, w2) := run rs' w1 in
      (resp :: resps, w2)
  end.

(** ** uuid.uuid4 (src/main.py line 61) *)




(** * Vocabulary of the specification *)

(** ** The formatting step *)

(** The value the formatter works on, in the words of the specification: a
    non-empty list stands for its last element, anything else for itself. *)
Definition effective_value (raw : json) : json :=
  match raw with
  | JList l => from_option id raw (last l)
  | _ => raw
  end.

Definition formatted_keys : gset string :=
  {[ "predicted_condition"; "medication_alerts"; "home_remedies";
     "diet_plan"; "youtube_videos" ]}.

(** ** Submissions *)

(** The record a submission with mapping [m] leaves in the intake log. *)
Definition stamp (m : gmap string json) (e : env) : gmap string json :=
  let r := <["server_received_at" := JStr (now_2 e)]>
             (<["timestamp" := JStr (now_1 e)]>
                (<["user_id" := JStr (uuid4 e)]> m)) in
  if bool_decide ("medications" ∈ dom m) then r
  else <["medications" := JList []]> r.

(** The intake log as a submission reads it: a missing file, text that is
    not JSON and JSON that is not a list all count as the empty list. *)
Definition intake_list (w : world) : list json :=
  match files w !! DATA_FILE with
  | Some (Text (JList l)) => l
  | _ => []
  end.

(** The intake file holds a JSON list. *)
Definition holds_list (w : world) : bool :=
  match files w !! DATA_FILE with
  | Some (Text (JList _)) => true
  | _ => false
  end.

(** The only state of the intake file a submission cannot read past. *)
Definition intake_readable (w : world) : bool :=
  match files w !! DATA_FILE with
  | Some (Undecodable _) => false
  | _ => true
  end.

(** The outbound call fails: no reply at all, or a 4xx or 5xx reply. *)
Definition webhook_failed (n : net_outcome) : Prop :=
  match n with
  | TransportFailure _ => True
  | Replied r => 400 ≤ status_code r < 600
  end.

(** The text of the [RequestException] the outbound call ends in, if any. *)
Definition webhook_error (n : net_outcome) : option string :=
  match n with
  | TransportFailure msg => Some msg
  | Replied r =>
      if bool_decide (400 ≤ status_code r < 600) then
        Some (pretty (status_code r)
              +:+ (if bool_decide (status_code r < 500)
                   then " Client Error: " else " Server Error: ")
              +:+ reason r +:+ " for url: " +:+ url r)
      else None
  end.

Definition triggered_response (user_id : string) : response :=
  Response (JDict (<["success" := JBool true]>
                   (<["message" := JStr "Data saved and AI analysis triggered"]>
                    (<["user_id" := JStr user_id]> ∅)))) 200.

Definition not_triggered_response (err : string) : response :=
  Response (JDict (<["success" := JBool true]>
                   (<["message" := JStr "Data saved but AI analysis failed to trigger"]>
                    (<["error" := JStr err]> ∅)))) 202.

Definition failed_response (details : string) : response :=
  Response (JDict (<["success" := JBool false]>
                   (<["error" := JStr "Failed to process submission"]>
                    (<["details" := JStr details]> ∅)))) 500.

Definition submit_response (e : env) : response :=
  match webhook_error (webhook e) with
  | None => triggered_response (uuid4 e)
  | Some err => not_triggered_response err
  end.

(** The world a persisted submission leaves behind: the record appended,
    the result slot cleared, one call sent out. *)
Definition after_submit (m : gmap string json) (e : env) (w : world) : world :=
  World (<[AI_RESPONSE_FILE := Text (JDict ∅)]>
           (<[DATA_FILE := Text (JList (intake_list w ++ [JDict (stamp m e)]))]> (files w)))
        (trace w ++ [EvWrite DATA_FILE (JList (intake_list w ++ [JDict (stamp m e)]));
                     EvWrite AI_RESPONSE_FILE (JDict ∅);
                     EvPost N8N_REMINDER_WEBHOOK (JDict (stamp m e)) 30]).

(** The outbound calls recorded in a trace. *)
Definition posts (t : list event) : list (string * json * Z) :=
  omap (λ ev, match ev with
              | EvPost u p t => Some (u, p, t)
              | EvWrite _ _ => None
              end) t.

Definition empty_response : response := Response (JDict ∅) 200.

Definition no_data_response : response :=
  Response (JDict {["message" := JStr "No user data found"]}) 404.

Definition error_response (text : string) : response :=
  Response (JDict {["error" := JStr text]}) 500.

(** ** Sequences of requests *)

(** The record a request adds to a readable intake log, if any. *)
Definition accepted (r : request) : option json :=
  match r with
  | Submit (JDict m) e => Some (JDict (stamp m e))
  | _ => None
  end.

Definition stored_records (rs : list request) : list json := omap accepted rs.

Definition is_submit (r : request) : bool :=
  match r with Submit _ _ => true | _ => false end.

Definition is_save (r : request) : bool :=
  match r with SaveAiResponse _ => true | _ => false end.

Definition succeeded (resp : response) : bool :=
  (status resp =? 200) || (status resp =? 202).

(** How many of the submissions among [rs] were answered 200 or 202. *)
Fixpoint successful_submissions (rs : list request) (resps : list response) : nat :=
  match rs, resps with
  | r :: rs', resp :: resps' =>
      ((if is_submit r && succeeded resp then 1 else 0)
       + successful_submissions rs' resps')%nat
  | _, _ => 0%nat
  end.





(** ** Sample inputs *)

Definition sample_reply (code : Z) (why : string) : net_outcome :=
  Replied (HttpReply code why N8N_REMINDER_WEBHOOK).

Definition sample_env (n : net_outcome) : env :=
  Env "6f1c2a9e-0b7d-4c55-9a3e-2d8f4b1c7e10"
      "2024-05-01T10:00:00.000001" "2024-05-01T10:00:00.000002" n.

Definition sample_body : gmap string json :=
  <["name" := JStr "Asha"]> (<["age" := JInt 41]> ∅).

Definition fresh_world : world :=
  World (<[DATA_FILE := Text (JList [])]> (<[AI_RESPONSE_FILE := Text (JDict ∅)]> ∅)) [].

Definition bare_world : world := World ∅ [].

Definition stale_world : world :=
  World (<[DATA_FILE := Text (JDict {["schema" := JInt 2]})]>
           (<[AI_RESPONSE_FILE := Text (JDict {["predicted_condition" := JStr "flu"]})]> ∅))
        [].

Definition sample_requests : list request :=
  [ Submit (JDict sample_body) (sample_env (sample_reply 200 "OK"));
    GetAiResponse;
    Submit (JDict sample_body)
           (Env "0d9b6c1e-7a42-4f0b-8e65-91c3a5d2f7b4"
                "2024-05-01T10:05:00.000001" "2024-05-01T10:05:00.000002"
                (TransportFailure "Connection refused"));
    Submit JNull
           (Env "c3a1f0d2-58e9-4b6a-a1d7-3e9f02b4c6a8"
                "2024-05-01T10:06:00.000001" "2024-05-01T10:06:00.000002"
                (sample_reply 200 "OK"));
    DebugLatestUser ].



(** ** Vocabulary of the further properties *)

(** The world [initialize_data_files] leaves behind. *)
Definition initialized (w : world) : world :=
  let w1 := match files w !! DATA_FILE with
            | Some _ => w
            | None => World (<[DATA_FILE := Text (JList [])]> (files w))
                            (trace w ++ [EvWrite DATA_FILE (JList [])])
            end in
  match files w1 !! AI_RESPONSE_FILE with
  | Some _ => w1
  | None => World (<[AI_RESPONSE_FILE := Text (JDict ∅)]> (files w1))
                  (trace w1 ++ [EvWrite AI_RESPONSE_FILE (JDict ∅)])
  end.

(** The five fields read off a mapping, with their defaults. *)
Definition formatted_view (m : gmap string json) : gmap string json :=
  <["predicted_condition" :=
      from_option id (JStr "Analysis pending...") (m !! "predicted_condition")]>
  (<["medication_alerts" := from_option id (JList []) (m !! "medication_alerts")]>
   (<["home_remedies" := from_option id (JList []) (m !! "home_remedies")]>
    (<["diet_plan" := from_option id (JList []) (m !! "diet_plan")]>
     (<["youtube_videos" := from_option id (JList []) (m !! "youtube_videos")]> ∅)))).

(** What GET /get-ai-response shows of a stored value. *)
Definition slot_view (j : json) : gmap string json :=
  if truthy j then
    match effective_value j with
    | JDict m => formatted_view m
    | _ => ∅
    end
  else ∅.

Definition is_get (r : request) : bool :=
  match r with
  | GetAiResponse | GetRecommendations | DebugLatestUser | DebugAiResponse => true
  | Submit _ _ | SaveAiResponse _ => false
  end.

(** The requests that may write the result slot. *)
Definition may_write_slot (r : request) : bool :=
  match r with
  | SaveAiResponse _ | Submit (JDict _) _ => true
  | _ => false
  end.

Definition webhook_call (record : json) : string * json * Z :=
  (N8N_REMINDER_WEBHOOK, record, 30).

(** The only effects the server is ever seen to have: a list written to the
    intake file, anything written to the result slot, a call with a timeout
    of 30 to the one webhook. *)
Definition expected_effect (ev : event) : Prop :=
  match ev with
  | EvWrite f j => (f = DATA_FILE ∧ isinstance_list j = true) ∨ f = AI_RESPONSE_FILE
  | EvPost u _ t => u = N8N_REMINDER_WEBHOOK ∧ t = 30
  end.

Definition server_fields : gset string :=
  {[ "user_id"; "timestamp"; "server_received_at" ]}.

Definition undecodable_world : world :=
  World {[DATA_FILE := Undecodable "'utf-8' codec can't decode byte 0xff in position 0: invalid start byte"]} [].

(** * Properties *)

(** ** Running a computation *)

Ltac unfold_io :=
  unfold mbind, M_bind, mret, M_ret, try_except, raise, open_r, json_load,
    write_dump, jsonify in *.

Ltac step_io := unfold_io; cbn [fst snd files trace body status] in *.

Ltac split_json j :=
  let b := fresh "b" in let z := fresh "z" in let f := fresh "f" in
  let s := fresh "s" in let l := fresh "l" in let d := fresh "d" in
  destruct j as [| b | z | f | s | l | d].

(** ** The formatting step *)

Lemma last_cons_is_Some {A} (x : A) (l : list A) : is_Some (last (x :: l)).
Proof.
  revert x. induction l as [|y l IH]; intros x; [by eexists|].
  change (last (x :: y :: l)) with (last (y :: l)). apply IH.
Qed.

Lemma format_dict (m : gmap string json) (w : world) :
  format_ai_response (JDict m) w =
    (Ret (JDict (<["predicted_condition" :=
                     from_option id (JStr "Analysis pending...") (m !! "predicted_condition")]>
                 (<["medication_alerts" := from_option id (JList []) (m !! "medication_alerts")]>
                  (<["home_remedies" := from_option id (JList []) (m !! "home_remedies")]>
                   (<["diet_plan" := from_option id (JList []) (m !! "diet_plan")]>
                    (<["youtube_videos" := from_option id (JList []) (m !! "youtube_videos")]>
                     ∅)))))), w).
Proof. reflexivity. Qed.

Lemma format_list_nonempty (l : list json) (x : json) (w : world) :
  last l = Some x →
  format_ai_response (JList l) w =
    match x with
    | JDict m => format_ai_response (JDict m) w
    | _ => (Ret (JDict ∅), w)
    end.
Proof.
  intros Hlast. destruct l as [|y l]; [discriminate|].
  unfold format_ai_response, py_len, py_getitem_last. step_io.
  cbn [isinstance_list]. rewrite Hlast.
  replace (0 <? Z.of_nat (length (y :: l))) with true
    by (symmetry; apply Z.ltb_lt; cbn [length]; lia).
  by destruct x.
Qed.

Lemma format_ai_response_returns (raw : json) (w : world) :
  ∃ out : gmap string json, format_ai_response raw w = (Ret (JDict out), w).
Proof.
  split_json raw; try (by exists ∅); [|by eexists; apply format_dict].
  destruct (last l) as [x|] eqn:Hlast.
  - rewrite (format_list_nonempty l x w Hlast).
    split_json x; try (by exists ∅). eexists; apply format_dict.
  - destruct l as [|y l]; [by exists ∅|].
    destruct (last_cons_is_Some y l); congruence.
Qed.

(** ** One submission *)

Lemma stamp_code (m : gmap string json) (e : env) :
  match (<["server_received_at" := JStr (now_2 e)]>
           (<["timestamp" := JStr (now_1 e)]>
              (<["user_id" := JStr (uuid4 e)]> m))) !! "medications" with
  | Some _ => <["server_received_at" := JStr (now_2 e)]>
                (<["timestamp" := JStr (now_1 e)]>
                   (<["user_id" := JStr (uuid4 e)]> m))
  | None => <["medications" := JList []]>
              (<["server_received_at" := JStr (now_2 e)]>
                 (<["timestamp" := JStr (now_1 e)]>
                    (<["user_id" := JStr (uuid4 e)]> m)))
  end = stamp m e.
Proof.
  unfold stamp. rewrite !lookup_insert_ne by done.
  case_bool_decide as Hin.
  - apply elem_of_dom in Hin as [v ->]. done.
  - apply not_elem_of_dom in Hin as ->. done.
Qed.

Lemma stamp_user_id (m : gmap string json) (e : env) :
  stamp m e !! "user_id" = Some (JStr (uuid4 e)).
Proof. unfold stamp. case_bool_decide; by simplify_map_eq. Qed.

Lemma stamp_medications (m : gmap string json) (e : env) :
  stamp m e !! "medications" = Some (from_option id (JList []) (m !! "medications")).
Proof.
  unfold stamp. case_bool_decide as Hin.
  - apply elem_of_dom in Hin as [v Hv]. by simplify_map_eq.
  - apply not_elem_of_dom in Hin. by simplify_map_eq.
Qed.

(** The three ways the status test of [raise_for_status] can go. *)
Lemma status_classes (c : Z) :
  ((400 <=? c) && (c <? 500) = true
     ∧ bool_decide (400 ≤ c < 600) = true ∧ bool_decide (c < 500) = true)
  ∨ ((400 <=? c) && (c <? 500) = false ∧ (500 <=? c) && (c <? 600) = true
     ∧ bool_decide (400 ≤ c < 600) = true ∧ bool_decide (c < 500) = false)
  ∨ ((400 <=? c) && (c <? 500) = false ∧ (500 <=? c) && (c <? 600) = false
     ∧ bool_decide (400 ≤ c < 600) = false).
Proof.
  destruct (400 <=? c) eqn:H4; destruct (c <? 500) eqn:H5;
    destruct (500 <=? c) eqn:H50; destruct (c <? 600) eqn:H6; cbn [andb];
    repeat case_bool_decide; try lia; auto 10.
Qed.

Lemma save_and_trigger_persists (m : gmap string json) (e : env) (w : world) :
  intake_readable w = true →
  save_and_trigger (JDict m) e w = (Ret (submit_response e), after_submit m e w).
Proof.
  intros Hread. unfold save_and_trigger, py_setitem.
  unfold try_except at 1. unfold mbind at 1, M_bind at 1. unfold mret at 1, M_ret at 1.
  cbn beta iota. rewrite stamp_code.
  unfold after_submit, submit_response, triggered_response, not_triggered_response,
    intake_list, intake_readable in *.
  unfold py_append, dict_getitem, requests_post, raise_for_status, webhook_error.
  rewrite stamp_user_id.
  step_io.
  destruct (files w !! DATA_FILE) as [[j | msg | msg]|]; try discriminate;
    [split_json j | |].
  all: step_io; cbn [isinstance_list negb app]; rewrite <- ?app_assoc; cbn [app].
  all: destruct (webhook e) as [msg' | r]; [reflexivity|].
  all: destruct (status_classes (status_code r))
         as [(-> & -> & ->) | [(-> & -> & -> & ->) | (-> & -> & ->)]];
       reflexivity.
Qed.

Lemma save_and_trigger_rejects (j : json) (e : env) (w : world) :
  isinstance_dict j = false →
  ∃ details, save_and_trigger j e w = (Ret (failed_response details), w).
Proof.
  intros Hj. unfold save_and_trigger, py_setitem, failed_response.
  split_json j; try discriminate; step_io; eexists; reflexivity.
Qed.

Lemma save_and_trigger_unreadable (m : gmap string json) (e : env) (w : world)
    (msg : string) :
  files w !! DATA_FILE = Some (Undecodable msg) →
  save_and_trigger (JDict m) e w = (Ret (failed_response msg), w).
Proof.
  intros Hf. unfold save_and_trigger, py_setitem, failed_response. step_io.
  rewrite Hf. reflexivity.
Qed.

(** A submission either persists its record or answers 500 and touches
    nothing. *)
Lemma save_and_trigger_cases (j : json) (e : env) (w : world) :
  (∃ m, j = JDict m ∧ intake_readable w = true ∧
        save_and_trigger j e w = (Ret (submit_response e), after_submit m e w))
  ∨ (∃ details, (isinstance_dict j = false ∨ intake_readable w = false) ∧
        save_and_trigger j e w = (Ret (failed_response details), w)).
Proof.
  destruct (isinstance_dict j) eqn:Hj.
  - destruct j as [| | | | | |m]; try discriminate.
    destruct (intake_readable w) eqn:Hr.
    + left. exists m. eauto using save_and_trigger_persists.
    + right. unfold intake_readable in Hr.
      destruct (files w !! DATA_FILE) as [[|?|msg]|] eqn:Hf; try discriminate.
      exists msg. split; [by right|]. by apply save_and_trigger_unreadable.
  - right. destruct (save_and_trigger_rejects j e w Hj) as [d Hd]. eauto.
Qed.

Lemma submit_response_succeeded (e : env) : succeeded (submit_response e) = true.
Proof. unfold submit_response. by destruct (webhook_error (webhook e)). Qed.

Lemma failed_response_not_succeeded (d : string) : succeeded (failed_response d) = false.
Proof. reflexivity. Qed.

(** ** The read-only handlers *)

Lemma get_ai_response_cases (w : world) :
  match files w !! AI_RESPONSE_FILE with
  | None | Some (Garbled _) => get_ai_response w = (Ret empty_response, w)
  | Some (Undecodable _) =>
      get_ai_response w = (Ret (error_response "Could not load AI response"), w)
  | Some (Text j) =>
      ∃ out : gmap string json,
        get_ai_response w = (Ret (Response (JDict out) 200), w) ∧
        (truthy j = false → out = ∅)
  end.
Proof.
  unfold get_ai_response, empty_response, error_response. step_io.
  destruct (files w !! AI_RESPONSE_FILE) as [[j | msg | msg]|]; try reflexivity.
  step_io.
  destruct (truthy j) eqn:Ht; cbn [negb]; [|exists ∅; split; [reflexivity | done]].
  assert (Hfmt : ∃ out : gmap string json,
    (let (o, w') := format_ai_response j w in
     match o with
     | Ret a => (Ret (Response a 200), w')
     | Raise e => (Raise e, w')
     end) = (Ret (Response (JDict out) 200), w)).
  { destruct (format_ai_response_returns j w) as [out ->]. by exists out. }
  split_json j; cbn [isinstance_dict py_len]; step_io;
    try (destruct Hfmt as [out ->]; by exists out).
  destruct (Z.of_nat (size d) =? 0); [by exists ∅|].
  destruct Hfmt as [out ->]; by exists out.
Qed.

Lemma get_ai_response_pure (w : world) :
  ∃ resp, get_ai_response w = (Ret resp, w).
Proof.
  pose proof (get_ai_response_cases w) as H.
  destruct (files w !! AI_RESPONSE_FILE) as [[j | msg | msg]|]; eauto.
  destruct H as (out & -> & _). eauto.
Qed.

Lemma get_latest_user_cases (w : world) :
  match files w !! DATA_FILE with
  | None =>
      get_latest_user w =
        (Ret (error_response (str_exn (FileNotFoundError DATA_FILE))), w)
  | Some (Garbled msg) | Some (Undecodable msg) =>
      get_latest_user w = (Ret (error_response msg), w)
  | Some (Text j) =>
      ∃ resp, get_latest_user w = (Ret resp, w) ∧
              (truthy j = false → resp = no_data_response)
  end.
Proof.
  unfold get_latest_user, no_data_response, error_response. step_io.
  destruct (files w !! DATA_FILE) as [[j | msg | msg]|]; try reflexivity.
  step_io.
  destruct (truthy j) eqn:Ht; [|by eexists].
  assert (Hclose : ∀ resp : response,
    ∃ resp' : response, (Ret resp, w) = (Ret resp', w) ∧
                        (true = false → resp' = no_data_response))
    by (intros resp; by exists resp).
  unfold no_data_response in Hclose.
  split_json j; cbn [py_len py_getitem_last type_name]; step_io;
    try apply Hclose.
  - destruct (0 <? Z.of_nat (code_points s)); [|apply Hclose].
    destruct (String.eqb s ""); apply Hclose.
  - destruct (0 <? Z.of_nat (length l)); [|apply Hclose].
    destruct (last l); apply Hclose.
  - destruct (0 <? Z.of_nat (size d)); apply Hclose.
Qed.

Lemma get_latest_user_pure (w : world) :
  ∃ resp, get_latest_user w = (Ret resp, w).
Proof.
  pose proof (get_latest_user_cases w) as H.
  destruct (files w !! DATA_FILE) as [[j | msg | msg]|]; eauto.
  destruct H as (resp & -> & _). eauto.
Qed.

Lemma debug_ai_response_pure (w : world) :
  ∃ resp, debug_ai_response w = (Ret resp, w).
Proof.
  unfold debug_ai_response. step_io.
  destruct (files w !! AI_RESPONSE_FILE) as [[j | msg | msg]|]; eauto.
Qed.

Lemma save_ai_response_run (j : json) (w : world) :
  ∃ resp, save_ai_response j w =
    (Ret resp, World (<[AI_RESPONSE_FILE := Text j]> (files w))
                     (trace w ++ [EvWrite AI_RESPONSE_FILE j])).
Proof. unfold save_ai_response. step_io. eauto. Qed.

(** ** One request *)

(** What any request does to the two files and to the trace. *)
Lemma serve_effect (r : request) (w : world) :
  (∃ m e, r = Submit (JDict m) e ∧ intake_readable w = true ∧
          serve r w = (submit_response e, after_submit m e w))
  ∨ (∃ j resp, r = SaveAiResponse j ∧
          serve r w = (resp, World (<[AI_RESPONSE_FILE := Text j]> (files w))
                                   (trace w ++ [EvWrite AI_RESPONSE_FILE j])))
  ∨ (∃ resp, is_save r = false ∧ serve r w = (resp, w) ∧
          (is_submit r = true → (∃ details, resp = failed_response details) ∧
             ∀ m e, r = Submit (JDict m) e → intake_readable w = false)).
Proof.
  unfold serve. destruct r as [j e | | | j | |]; cbn [handle].
  - destruct (save_and_trigger_cases j e w)
      as [(m & -> & Hr & ->) | (d & Hwhy & ->)].
    + left. eauto.
    + right; right. eexists. split; [done|]. split; [done|].
      intros _. split; [by exists d|]. intros m e' [= -> _].
      by destruct Hwhy as [Hd | Hr].
  - right; right. destruct (get_ai_response_pure w) as [resp ->].
    exists resp. by repeat split.
  - right; right. unfold get_recommendations.
    destruct (get_ai_response_pure w) as [resp ->].
    exists resp. by repeat split.
  - right; left. destruct (save_ai_response_run j w) as [resp ->]. eauto.
  - right; right. destruct (get_latest_user_pure w) as [resp ->].
    exists resp. by repeat split.
  - right; right. destruct (debug_ai_response_pure w) as [resp ->].
    exists resp. by repeat split.
Qed.

Lemma after_submit_data (m : gmap string json) (e : env) (w : world) :
  files (after_submit m e w) !! DATA_FILE =
    Some (Text (JList (intake_list w ++ [JDict (stamp m e)]))).
Proof. unfold after_submit. cbn [files]. by simplify_map_eq. Qed.

Lemma after_submit_slot (m : gmap string json) (e : env) (w : world) :
  files (after_submit m e w) !! AI_RESPONSE_FILE = Some (Text (JDict ∅)).
Proof. unfold after_submit. cbn [files]. by simplify_map_eq. Qed.

Lemma holds_list_file (w : world) :
  holds_list w = true → files w !! DATA_FILE = Some (Text (JList (intake_list w))).
Proof.
  unfold holds_list, intake_list.
  destruct (files w !! DATA_FILE) as [[j | |]|]; try done. by split_json j.
Qed.

Lemma holds_list_readable (w : world) : holds_list w = true → intake_readable w = true.
Proof.
  unfold holds_list, intake_readable.
  by destruct (files w !! DATA_FILE) as [[j | |]|].
Qed.

Lemma serve_intake (r : request) (w : world) :
  intake_readable w = true →
  intake_readable (serve r w).2 = true
  ∧ intake_list (serve r w).2 = intake_list w ++ option_list (accepted r)
  ∧ (holds_list w = true ∨ is_Some (accepted r) → holds_list (serve r w).2 = true)
  ∧ (if is_submit r && succeeded (serve r w).1 then 1 else 0)%nat
    = length (option_list (accepted r)).
Proof.
  intros Hread.
  destruct (serve_effect r w)
    as [(m & e & -> & _ & ->) | [(j & resp & -> & ->) | (resp & Hns & -> & Hsub)]];
    cbn [fst snd accepted option_list is_submit andb length].
  - unfold intake_readable, holds_list, intake_list at 1.
    rewrite after_submit_data, submit_response_succeeded. done.
  - unfold intake_readable, holds_list, intake_list in *. cbn [files].
    rewrite lookup_insert_ne by done. rewrite app_nil_r.
    repeat split; try done. by intros [? | [? [=]]].
  - assert (Hnone : accepted r = None).
    { destruct r as [j e | | | j | |]; try done. split_json j; try done.
      destruct (Hsub eq_refl) as [_ Hno]. specialize (Hno _ _ eq_refl). congruence. }
    rewrite Hnone. cbn [option_list length]. rewrite app_nil_r.
    repeat split; try done; [by intros [? | [? [=]]]|].
    destruct (is_submit r) eqn:Hs; [|done].
    by destruct (Hsub eq_refl) as [[d ->] _].
Qed.

Lemma serve_slot_stays_cleared (r : request) (w : world) :
  is_save r = false →
  files w !! AI_RESPONSE_FILE = Some (Text (JDict ∅)) →
  files (serve r w).2 !! AI_RESPONSE_FILE = Some (Text (JDict ∅)).
Proof.
  intros Hr Hw.
  destruct (serve_effect r w)
    as [(m & e & -> & _ & ->) | [(j & resp & -> & ->) | (resp & _ & -> & _)]];
    [apply after_submit_slot | discriminate | done].
Qed.

(** ** Sequences of requests *)

Lemma run_cons (r : request) (rs : list request) (w : world) :
  run (r :: rs) w =
    ((serve r w).1 :: (run rs (serve r w).2).1, (run rs (serve r w).2).2).
Proof.
  cbn [run]. destruct (serve r w) as [resp w1]. cbn [fst snd].
  destruct (run rs w1) as [resps w2]. reflexivity.
Qed.

Lemma stored_records_cons (r : request) (rs : list request) :
  stored_records (r :: rs) = option_list (accepted r) ++ stored_records rs.
Proof. unfold stored_records. cbn [omap list_omap]. by destruct (accepted r). Qed.

Lemma run_intake (rs : list request) :
  ∀ w : world,
    intake_readable w = true →
    intake_list (run rs w).2 = intake_list w ++ stored_records rs
    ∧ (holds_list w = true ∨ stored_records rs ≠ [] → holds_list (run rs w).2 = true)
    ∧ successful_submissions rs (run rs w).1 = length (stored_records rs).
Proof.
  induction rs as [|r rs IH]; intros w Hread.
  - cbn. rewrite app_nil_r. repeat split; try done. by intros [? | ?].
  - rewrite run_cons, stored_records_cons. cbn [fst snd successful_submissions].
    destruct (serve_intake r w Hread) as (Hread' & Hlist & Hholds & Hcount).
    destruct (IH _ Hread') as (Hlist' & Hholds' & Hcount').
    rewrite Hlist', Hlist, Hcount', Hcount, length_app, <- app_assoc.
    repeat split; try done.
    intros Hsome. apply Hholds'.
    destruct (accepted r) as [x|]; cbn [option_list app] in *.
    + left. apply Hholds. right. by eexists.
    + destruct Hsome as [Hw | Hrs]; [left; apply Hholds; by left | by right].
Qed.

Lemma run_slot_stays_cleared (rs : list request) :
  ∀ w : world,
    forallb (λ r, negb (is_save r)) rs = true →
    files w !! AI_RESPONSE_FILE = Some (Text (JDict ∅)) →
    files (run rs w).2 !! AI_RESPONSE_FILE = Some (Text (JDict ∅)).
Proof.
  induction rs as [|r rs IH]; intros w Hrs Hw; [done|].
  cbn [forallb] in Hrs. apply andb_true_iff in Hrs as [Hr Hrs].
  rewrite run_cons. cbn [snd]. apply IH; [done|].
  apply serve_slot_stays_cleared; [|done]. by destruct (is_save r).
Qed.



(** ** Drawing uuids *)



(** ** Concrete runs *)

(** The example of the specification: after the analyzer posts
    [{"predicted_condition": "flu"}], the client reads the five fields. *)
Example flu_is_normalised :
  (run [SaveAiResponse (JDict {["predicted_condition" := JStr "flu"]}); GetAiResponse]
       fresh_world).1 =
  [ Response (JDict (<["success" := JBool true]>
                     (<["message" := JStr "AI response saved"]> ∅))) 200;
    Response (JDict (<["predicted_condition" := JStr "flu"]>
                     (<["medication_alerts" := JList []]>
                      (<["home_remedies" := JList []]>
                       (<["diet_plan" := JList []]>
                        (<["youtube_videos" := JList []]> ∅)))))) 200 ].
Proof. vm_compute. reflexivity. Qed.

(** A body that is neither a mapping nor a list reads back as [{}]. *)
Example scalar_result_reads_as_empty :
  (run [SaveAiResponse (JInt 7); GetAiResponse] fresh_world).1 !! 1%nat =
    Some empty_response.
Proof. vm_compute. reflexivity. Qed.

(** Only one level of list is looked through. *)
Example nested_list_is_not_a_mapping :
  format_ai_response (JList [JList [JDict {["predicted_condition" := JStr "flu"]}]])
    bare_world = (Ret (JDict ∅), bare_world).
Proof. vm_compute. reflexivity. Qed.

Example last_of_a_list_is_used :
  ∃ out : gmap string json,
    format_ai_response
      (JList [JDict {["predicted_condition" := JStr "flu"]};
              JDict (<["predicted_condition" := JStr "cold"]>
                     (<["confidence" := JInt 90]> ∅))])
      bare_world = (Ret (JDict out), bare_world)
    ∧ out !! "predicted_condition" = Some (JStr "cold")
    ∧ out !! "confidence" = None.
Proof. eexists. split; [reflexivity|]. vm_compute. done. Qed.

(** [len] and [x[-1]] on strings count code points, not bytes. *)
Example strings_by_code_point :
  code_points "日本" = 2%nat
  ∧ string_last "日本" = "本"
  ∧ string_last "café" = "é"
  ∧ string_last "née" = "e"
  ∧ serve DebugLatestUser (World {[DATA_FILE := Text (JStr "café")]} []) =
      (Response (JStr "é") 200, World {[DATA_FILE := Text (JStr "café")]} []).
Proof. vm_compute. done. Qed.

(** A whole session: two submissions, the second with the webhook down, a
    rejected body in between the reads. *)
Example sample_session_statuses :
  status <$> (run sample_requests fresh_world).1 = [200; 200; 202; 500; 200].
Proof. vm_compute. reflexivity. Qed.


(** * The claims *)

(** C1. For every stored value, [format_ai_response] answers a mapping and
    leaves the world alone.  With a non-empty list standing for its last
    element: when the value is not a mapping the answer is the empty
    mapping; when it is a mapping [m] the answer has exactly the five keys
    [predicted_condition], [medication_alerts], [home_remedies], [diet_plan],
    [youtube_videos], each taken from [m] when present, otherwise the
    placeholder "Analysis pending..." for the first and the empty list for
    the other four; every other key of [m] is gone. *)
Theorem format_ai_response_five_fields (raw : json) (w : world) :
  ∃ out : gmap string json,
    format_ai_response raw w = (Ret (JDict out), w) ∧
    match effective_value raw with
    | JDict m =>
        dom out = formatted_keys ∧
        out !! "predicted_condition" =
          Some (from_option id (JStr "Analysis pending...") (m !! "predicted_condition")) ∧
        out !! "medication_alerts" =
          Some (from_option id (JList []) (m !! "medication_alerts")) ∧
        out !! "home_remedies" =
          Some (from_option id (JList []) (m !! "home_remedies")) ∧
        out !! "diet_plan" =
          Some (from_option id (JList []) (m !! "diet_plan")) ∧
        out !! "youtube_videos" =
          Some (from_option id (JList []) (m !! "youtube_videos"))
    | _ => out = ∅
    end.
Proof.
  assert (Hdict : ∀ m : gmap string json, ∃ out : gmap string json,
    format_ai_response (JDict m) w = (Ret (JDict out), w) ∧
    dom out = formatted_keys ∧
    out !! "predicted_condition" =
      Some (from_option id (JStr "Analysis pending...") (m !! "predicted_condition")) ∧
    out !! "medication_alerts" = Some (from_option id (JList []) (m !! "medication_alerts")) ∧
    out !! "home_remedies" = Some (from_option id (JList []) (m !! "home_remedies")) ∧
    out !! "diet_plan" = Some (from_option id (JList []) (m !! "diet_plan")) ∧
    out !! "youtube_videos" = Some (from_option id (JList []) (m !! "youtube_videos"))).
  { intros m. eexists. split; [apply format_dict|].
    split; [|by repeat split; simplify_map_eq].
    rewrite !dom_insert_L, dom_empty_L. unfold formatted_keys. set_solver. }
  split_json raw; try (exists ∅; split; reflexivity).
  - cbn [effective_value]. destruct (last l) as [x|] eqn:Hlast.
    + rewrite (format_list_nonempty l x w Hlast). cbn [from_option id].
      split_json x; try (exists ∅; split; reflexivity).
      apply Hdict.
    + destruct l as [|y l]; [|by destruct (last_cons_is_Some y l); congruence].
      exists ∅. split; reflexivity.
  - apply Hdict.
Qed.



(** C3. After a successful submission (answered 200 or 202), and through any
    later requests none of which is a POST /save-ai-response, the result slot
    holds the empty mapping, whatever it held before, and GET /get-ai-response
    and its alias answer [{}] with 200. *)
Theorem slot_cleared_after_submission (j : json) (e : env) (w : world)
    (rs : list request) :
  succeeded (serve (Submit j e) w).1 = true →
  forallb (λ r, negb (is_save r)) rs = true →
  let w' := (run rs (serve (Submit j e) w).2).2 in
  files w' !! AI_RESPONSE_FILE = Some (Text (JDict ∅))
  ∧ serve GetAiResponse w' = (empty_response, w')
  ∧ serve GetRecommendations w' = (empty_response, w').
Proof.
  intros Hok Hrs w'.
  assert (Hslot : files w' !! AI_RESPONSE_FILE = Some (Text (JDict ∅))).
  { apply run_slot_stays_cleared; [done|].
    destruct (serve_effect (Submit j e) w)
      as [(m & e' & _ & _ & ->) | [(j' & resp & [=] & _) | (resp & _ & Hs & Hsub)]].
    - apply after_submit_slot.
    - rewrite Hs in Hok. destruct (Hsub eq_refl) as [[d ->] _]. discriminate. }
  split; [done|].
  pose proof (get_ai_response_cases w') as Hget. rewrite Hslot in Hget.
  destruct Hget as (out & Hrun & Hout). rewrite (Hout eq_refl) in Hrun.
  unfold serve, handle, get_recommendations. by rewrite Hrun.
Qed.

(** C4, as stated, fails: with the intake file missing, or holding text that
    is not JSON, GET /debug/latest-user answers 500, not 404. *)
Lemma latest_user_surfaces_read_failures :
  files bare_world !! DATA_FILE = None
  ∧ status (serve DebugLatestUser bare_world).1 = 500
  ∧ status (serve DebugLatestUser
              (World {[DATA_FILE := Garbled "Expecting value: line 1 column 1 (char 0)"]} [])).1
    = 500.
Proof. vm_compute. done. Qed.

(** C4, amended. GET /debug/latest-user answers 404 with the "no data"
    message when the intake file holds the empty list.  When the file is
    missing or holds text that is not JSON, the handler's catch-all turns the
    read failure into a 500 answer carrying the text of the exception.  The
    world is left as it was in each case. *)
Theorem latest_user_on_empty_store (w : world) :
  (files w !! DATA_FILE = Some (Text (JList [])) →
     serve DebugLatestUser w = (no_data_response, w))
  ∧ (files w !! DATA_FILE = None →
     serve DebugLatestUser w =
       (error_response "[Errno 2] No such file or directory: 'user_data.json'", w))
  ∧ (∀ msg, files w !! DATA_FILE = Some (Garbled msg) →
     serve DebugLatestUser w = (error_response msg, w)).
Proof.
  pose proof (get_latest_user_cases w) as H. unfold serve, handle.
  repeat split.
  - intros Hf. rewrite Hf in H. destruct H as (resp & -> & Hresp).
    by rewrite (Hresp eq_refl).
  - intros Hf. rewrite Hf in H. by rewrite H.
  - intros msg Hf. rewrite Hf in H. by rewrite H.
Qed.

(** C5, as stated, fails: a reply that is neither 2xx nor 4xx/5xx does not
    make [raise_for_status] raise, so the record is persisted and the answer
    is 200, not 202. *)
Lemma not_modified_reply_is_reported_as_triggered :
  let e := sample_env (sample_reply 304 "Not Modified") in
  let out := serve (Submit (JDict sample_body) e) fresh_world in
  ¬ (200 ≤ 304 < 300)
  ∧ files out.2 !! DATA_FILE = Some (Text (JList [JDict (stamp sample_body e)]))
  ∧ status out.1 = 200
  ∧ status out.1 ≠ 202.
Proof. split; [lia|]. vm_compute. done. Qed.

(** C5, amended. When the record of a submission is persisted and the
    outbound call fails, by a transport failure or by a 4xx or 5xx status of
    the external endpoint, the answer is 202 with [success] true, the message
    "Data saved but AI analysis failed to trigger" and the text of the error;
    the record is in the intake log all the same, and the trace shows exactly
    one outbound call for the request: nothing is retried. *)
Theorem webhook_failure_is_soft (m : gmap string json) (e : env) (w : world) :
  intake_readable w = true →
  webhook_failed (webhook e) →
  ∃ err : string,
    webhook_error (webhook e) = Some err
    ∧ (serve (Submit (JDict m) e) w).1 =
        Response (JDict (<["success" := JBool true]>
                         (<["message" := JStr "Data saved but AI analysis failed to trigger"]>
                          (<["error" := JStr err]> ∅)))) 202
    ∧ files (serve (Submit (JDict m) e) w).2 !! DATA_FILE =
        Some (Text (JList (intake_list w ++ [JDict (stamp m e)])))
    ∧ posts (trace (serve (Submit (JDict m) e) w).2) =
        posts (trace w) ++ [(N8N_REMINDER_WEBHOOK, JDict (stamp m e), 30)].
Proof.
  intros Hr Hfail. unfold serve. cbn [handle].
  rewrite (save_and_trigger_persists m e w Hr). cbn [fst snd].
  assert (Herr : ∃ err, webhook_error (webhook e) = Some err).
  { unfold webhook_failed, webhook_error in *.
    destruct (webhook e) as [msg | r]; [by eexists|].
    rewrite bool_decide_eq_true_2 by done. by eexists. }
  destruct Herr as [err Herr]. exists err.
  split; [done|]. split; [unfold submit_response; by rewrite Herr|].
  split; [apply after_submit_data|].
  unfold after_submit, posts. cbn [trace]. by rewrite omap_app.
Qed.

(** C6. Take an intake file that a submission can read: a list, or one of
    the states read as the empty list (missing, not JSON, JSON that is not a
    list).  After any sequence of requests handled one after the other, the
    log is what it was followed by the records of the submissions in the
    order they were made, and nothing else: existing records are neither
    changed nor removed.  The file holds exactly that list as soon as it held
    a list at the start or one record was added.  The number of records added
    is the number of submissions answered 200 or 202; from an empty store, N
    successful submissions leave exactly their N records.  One submission
    writes back the list it read with its record appended at the end. *)
Theorem intake_log_in_submission_order (rs : list request) (w : world) :
  intake_readable w = true →
  intake_list (run rs w).2 = intake_list w ++ stored_records rs
  ∧ (holds_list w = true ∨ stored_records rs ≠ [] →
       files (run rs w).2 !! DATA_FILE =
         Some (Text (JList (intake_list w ++ stored_records rs))))
  ∧ length (stored_records rs) = successful_submissions rs (run rs w).1
  ∧ ∀ m e, (serve (Submit (JDict m) e) w).2 =
      World (<[AI_RESPONSE_FILE := Text (JDict ∅)]>
               (<[DATA_FILE := Text (JList (intake_list w ++ [JDict (stamp m e)]))]>
                  (files w)))
            (trace w ++ [EvWrite DATA_FILE (JList (intake_list w ++ [JDict (stamp m e)]));
                         EvWrite AI_RESPONSE_FILE (JDict ∅);
                         EvPost N8N_REMINDER_WEBHOOK (JDict (stamp m e)) 30]).
Proof.
  intros Hread. destruct (run_intake rs w Hread) as (Hlist & Hholds & Hcount).
  split; [done|]. split.
  { intros Hsome. rewrite <- Hlist. by apply holds_list_file, Hholds. }
  split; [done|].
  intros m e. unfold serve. cbn [handle].
  by rewrite (save_and_trigger_persists m e w Hread).
Qed.

(** C7. When a submission whose body is a mapping is persisted, the record
    appended to the intake log has [medications] equal to the empty list if
    the body has no such field, and equal to the body's value if it has. *)
Theorem medications_defaulted (m : gmap string json) (e : env) (w : world) :
  intake_readable w = true →
  ∃ r : gmap string json,
    files (serve (Submit (JDict m) e) w).2 !! DATA_FILE =
      Some (Text (JList (intake_list w ++ [JDict r])))
    ∧ (m !! "medications" = None → r !! "medications" = Some (JList []))
    ∧ (∀ v, m !! "medications" = Some v → r !! "medications" = Some v).
Proof.
  intros Hr. exists (stamp m e). unfold serve. cbn [handle].
  rewrite (save_and_trigger_persists m e w Hr). cbn [snd].
  split; [apply after_submit_data|].
  rewrite stamp_medications. split; [by intros ->|by intros v ->].
Qed.

(** C8. When the result slot file is missing or holds text that is not
    JSON, GET /get-ai-response and GET /get_recommendations answer [{}] with
    200 and change nothing.  In every state the answer is 200 or 500, and it
    is 500 only when reading the file fails in another way (here: its bytes
    are not UTF-8). *)
Theorem get_ai_response_masks_read_failures (w : world) :
  ((files w !! AI_RESPONSE_FILE = None
    ∨ ∃ msg, files w !! AI_RESPONSE_FILE = Some (Garbled msg)) →
     serve GetAiResponse w = (empty_response, w)
     ∧ serve GetRecommendations w = (empty_response, w))
  ∧ (status (serve GetAiResponse w).1 = 200 ∨ status (serve GetAiResponse w).1 = 500)
  ∧ (status (serve GetAiResponse w).1 = 500 →
     ∃ msg, files w !! AI_RESPONSE_FILE = Some (Undecodable msg))
  ∧ serve GetRecommendations w = serve GetAiResponse w.
Proof.
  pose proof (get_ai_response_cases w) as H.
  unfold serve, handle, get_recommendations.
  destruct (files w !! AI_RESPONSE_FILE) as [[j | msg | msg]|] eqn:Hf;
    [destruct H as (out & -> & _) | rewrite H ..]; cbn [fst status empty_response].
  - split; [by intros [? | [? ?]]|]. split; [by left|]. by split.
  - split; [done|]. split; [by left|]. by split.
  - split; [by intros [? | [? ?]]|]. split; [by right|]. split; [by eauto | done].
  - split; [done|]. split; [by left|]. by split.
Qed.

(** C9. A submission whose JSON body is not a mapping is answered 500 with
    [success] false, and the world is exactly what it was: neither file is
    written (no partial persistence, no clearing of the result slot) and
    nothing is sent out. *)
Theorem non_mapping_submission_rejected (j : json) (e : env) (w : world) :
  isinstance_dict j = false →
  ∃ details : string,
    serve (Submit j e) w =
      (Response (JDict (<["success" := JBool false]>
                        (<["error" := JStr "Failed to process submission"]>
                         (<["details" := JStr details]> ∅)))) 500, w).
Proof.
  intros Hj. destruct (save_and_trigger_rejects j e w Hj) as [d Hd].
  exists d. unfold serve. cbn [handle]. by rewrite Hd.
Qed.

(** C10. When the intake file holds valid JSON that is not a list, a
    submission with a mapping body drops that content: afterwards the file
    holds the one-element list with the new record, and the answer is 200 or
    202, not an error. *)
Theorem non_list_intake_is_replaced (j : json) (m : gmap string json) (e : env)
    (w : world) :
  files w !! DATA_FILE = Some (Text j) →
  isinstance_list j = false →
  files (serve (Submit (JDict m) e) w).2 !! DATA_FILE =
    Some (Text (JList [JDict (stamp m e)]))
  ∧ (status (serve (Submit (JDict m) e) w).1 = 200
     ∨ status (serve (Submit (JDict m) e) w).1 = 202).
Proof.
  intros Hf Hj. unfold serve. cbn [handle].
  rewrite save_and_trigger_persists by (unfold intake_readable; by rewrite Hf).
  cbn [fst snd]. rewrite after_submit_data. unfold intake_list. rewrite Hf.
  split; [by split_json j|].
  unfold submit_response. destruct (webhook_error (webhook e)); [by right | by left].
Qed.

(** * The theorems at sample inputs *)


Lemma slot_cleared_after_submission_witness :
  let w' := (run [GetAiResponse; DebugLatestUser]
               (serve (Submit (JDict sample_body) (sample_env (sample_reply 200 "OK")))
                      stale_world).2).2 in
  files w' !! AI_RESPONSE_FILE = Some (Text (JDict ∅))
  ∧ serve GetAiResponse w' = (empty_response, w')
  ∧ serve GetRecommendations w' = (empty_response, w').
Proof.
  apply (slot_cleared_after_submission
           (JDict sample_body) (sample_env (sample_reply 200 "OK")) stale_world
           [GetAiResponse; DebugLatestUser]);
    vm_compute; reflexivity.
Defined.

Lemma latest_user_on_empty_store_witness :
  serve DebugLatestUser fresh_world = (no_data_response, fresh_world)
  ∧ serve DebugLatestUser bare_world =
      (error_response "[Errno 2] No such file or directory: 'user_data.json'", bare_world).
Proof.
  split.
  - destruct (latest_user_on_empty_store fresh_world) as (Hempty & _ & _).
    apply Hempty. vm_compute; reflexivity.
  - destruct (latest_user_on_empty_store bare_world) as (_ & Hmissing & _).
    apply Hmissing. vm_compute; reflexivity.
Defined.

Lemma webhook_failure_is_soft_witness :
  let e := sample_env (sample_reply 503 "Service Unavailable") in
  ∃ err : string,
    webhook_error (webhook e) = Some err
    ∧ status (serve (Submit (JDict sample_body) e) fresh_world).1 = 202
    ∧ posts (trace (serve (Submit (JDict sample_body) e) fresh_world).2) =
        [(N8N_REMINDER_WEBHOOK, JDict (stamp sample_body e), 30)].
Proof.
  intros e.
  destruct (webhook_failure_is_soft sample_body e fresh_world)
    as (err & Herr & Hresp & _ & Hposts).
  - vm_compute; reflexivity.
  - cbn. lia.
  - exists err. split; [exact Herr|]. split; [by rewrite Hresp | exact Hposts].
Defined.

Lemma intake_log_in_submission_order_witness :
  files (run sample_requests bare_world).2 !! DATA_FILE =
    Some (Text (JList (stored_records sample_requests)))
  ∧ length (stored_records sample_requests) = 2%nat
  ∧ successful_submissions sample_requests (run sample_requests bare_world).1 = 2%nat.
Proof.
  destruct (intake_log_in_submission_order sample_requests bare_world)
    as (_ & Hfile & Hcount & _).
  - vm_compute; reflexivity.
  - split; [apply Hfile; right; discriminate|].
    split; [reflexivity|]. by rewrite <- Hcount.
Defined.

Lemma medications_defaulted_witness :
  ∃ r : gmap string json,
    files (serve (Submit (JDict sample_body) (sample_env (sample_reply 200 "OK")))
                 fresh_world).2 !! DATA_FILE = Some (Text (JList [JDict r]))
    ∧ r !! "medications" = Some (JList []).
Proof.
  destruct (medications_defaulted sample_body (sample_env (sample_reply 200 "OK"))
              fresh_world) as (r & Hfile & Hnone & _).
  - vm_compute; reflexivity.
  - exists r. split; [exact Hfile|]. apply Hnone. vm_compute; reflexivity.
Defined.

Lemma get_ai_response_masks_read_failures_witness :
  serve GetAiResponse bare_world = (empty_response, bare_world)
  ∧ serve GetRecommendations bare_world = (empty_response, bare_world).
Proof.
  destruct (get_ai_response_masks_read_failures bare_world) as (Hmasked & _).
  apply Hmasked. left. vm_compute; reflexivity.
Defined.

Lemma non_mapping_submission_rejected_witness :
  ∃ details : string,
    serve (Submit (JList [JInt 1]) (sample_env (sample_reply 200 "OK"))) stale_world =
      (Response (JDict (<["success" := JBool false]>
                        (<["error" := JStr "Failed to process submission"]>
                         (<["details" := JStr details]> ∅)))) 500, stale_world).
Proof.
  apply (non_mapping_submission_rejected
           (JList [JInt 1]) (sample_env (sample_reply 200 "OK")) stale_world).
  reflexivity.
Defined.

Lemma non_list_intake_is_replaced_witness :
  let e := sample_env (sample_reply 200 "OK") in
  files (serve (Submit (JDict sample_body) e) stale_world).2 !! DATA_FILE =
    Some (Text (JList [JDict (stamp sample_body e)]))
  ∧ (status (serve (Submit (JDict sample_body) e) stale_world).1 = 200
     ∨ status (serve (Submit (JDict sample_body) e) stale_world).1 = 202).
Proof.
  apply (non_list_intake_is_replaced
           (JDict {["schema" := JInt 2]}) sample_body
           (sample_env (sample_reply 200 "OK")) stale_world).
  - vm_compute; reflexivity.
  - reflexivity.
Defined.

(** * Further properties of the code *)

(** ** Start-up *)

Lemma initialize_data_files_run (w : world) :
  initialize_data_files w = (Ret tt, initialized w).
Proof.
  unfold initialize_data_files, initialized, for_each, os_path_exists. step_io.
  change (String.eqb DATA_FILE DATA_FILE) with true.
  change (String.eqb AI_RESPONSE_FILE DATA_FILE) with false.
  destruct (files w !! DATA_FILE) as [c|] eqn:Hd; cbn [negb files trace].
  - rewrite bool_decide_eq_true_2 by done. cbn [negb].
    destruct (files w !! AI_RESPONSE_FILE) as [c'|] eqn:Ha.
    + rewrite bool_decide_eq_true_2 by done. reflexivity.
    + rewrite bool_decide_eq_false_2 by (by intros [? ?]). reflexivity.
  - rewrite bool_decide_eq_false_2 by (by intros [? ?]). cbn [negb files trace].
    rewrite lookup_insert_ne by done.
    destruct (files w !! AI_RESPONSE_FILE) as [c'|] eqn:Ha.
    + rewrite bool_decide_eq_true_2 by done. reflexivity.
    + rewrite bool_decide_eq_false_2 by (by intros [? ?]). reflexivity.
Qed.

Lemma initialized_data (w : world) :
  files (initialized w) !! DATA_FILE =
    Some (from_option id (Text (JList [])) (files w !! DATA_FILE)).
Proof.
  unfold initialized.
  destruct (files w !! DATA_FILE) as [c|] eqn:Hd; cbn [files trace from_option id];
    [|rewrite lookup_insert_ne by done];
    destruct (files w !! AI_RESPONSE_FILE) eqn:Ha; cbn [files];
    by simplify_map_eq.
Qed.

Lemma initialized_slot (w : world) :
  files (initialized w) !! AI_RESPONSE_FILE =
    Some (from_option id (Text (JDict ∅)) (files w !! AI_RESPONSE_FILE)).
Proof.
  unfold initialized.
  destruct (files w !! DATA_FILE) as [c|] eqn:Hd; cbn [files trace from_option id];
    [|rewrite lookup_insert_ne by done];
    destruct (files w !! AI_RESPONSE_FILE) eqn:Ha; cbn [files from_option id];
    by simplify_map_eq.
Qed.

Lemma initialized_present (w : world) :
  is_Some (files w !! DATA_FILE) → is_Some (files w !! AI_RESPONSE_FILE) →
  initialized w = w.
Proof. unfold initialized. intros [c ->] [c' Ha]. cbn zeta. by rewrite Ha. Qed.

(** X1. [initialize_data_files] never raises.  A file that is missing is
    created, the intake file with [[]] and the result slot with [{}]; a file
    that exists keeps its content, whatever it is (also text that is not
    JSON); no other file is touched; when both files exist nothing at all
    happens. *)
Theorem initialize_creates_only_what_is_missing (w : world) :
  (initialize_data_files w).1 = Ret tt
  ∧ files (initialize_data_files w).2 !! DATA_FILE =
      Some (from_option id (Text (JList [])) (files w !! DATA_FILE))
  ∧ files (initialize_data_files w).2 !! AI_RESPONSE_FILE =
      Some (from_option id (Text (JDict ∅)) (files w !! AI_RESPONSE_FILE))
  ∧ (∀ name, name ≠ DATA_FILE → name ≠ AI_RESPONSE_FILE →
       files (initialize_data_files w).2 !! name = files w !! name)
  ∧ (is_Some (files w !! DATA_FILE) → is_Some (files w !! AI_RESPONSE_FILE) →
       (initialize_data_files w).2 = w).
Proof.
  rewrite initialize_data_files_run. cbn [fst snd].
  split; [done|]. split; [apply initialized_data|]. split; [apply initialized_slot|].
  split; [|apply initialized_present].
  intros name Hd Ha. unfold initialized.
  destruct (files w !! DATA_FILE) eqn:Hwd; cbn [files trace];
    [|rewrite (lookup_insert_ne _ DATA_FILE AI_RESPONSE_FILE) by done];
    destruct (files w !! AI_RESPONSE_FILE) eqn:Hwa; cbn [files];
    by simplify_map_eq.
Qed.

(** X2. Running [initialize_data_files] a second time changes nothing: no
    file is rewritten and the trace gets no new write, so calling it at every
    start is safe for the data already on disk. *)
Theorem initialize_twice_is_once (w : world) :
  initialize_data_files (initialize_data_files w).2 =
    (Ret tt, (initialize_data_files w).2).
Proof.
  rewrite !initialize_data_files_run. cbn [snd]. f_equal.
  apply initialized_present.
  - rewrite initialized_data. by eexists.
  - rewrite initialized_slot. by eexists.
Qed.

(** ** The read handlers on stored JSON *)

Lemma format_ai_response_run (raw : json) (w : world) :
  format_ai_response raw w =
    (Ret (JDict match effective_value raw with
                | JDict m => formatted_view m
                | _ => ∅
                end), w).
Proof.
  split_json raw; try reflexivity.
  cbn [effective_value]. destruct (last l) as [x|] eqn:Hlast; cbn [from_option id].
  - rewrite (format_list_nonempty l x w Hlast). by split_json x.
  - destruct l as [|y l]; [reflexivity|].
    destruct (last_cons_is_Some y l); congruence.
Qed.

Lemma formatted_view_dom (m : gmap string json) :
  dom (formatted_view m) = formatted_keys.
Proof.
  unfold formatted_view, formatted_keys.
  rewrite !dom_insert_L, dom_empty_L. set_solver.
Qed.

Lemma get_ai_response_on_json (j : json) (w : world) :
  files w !! AI_RESPONSE_FILE = Some (Text j) →
  get_ai_response w = (Ret (Response (JDict (slot_view j)) 200), w).
Proof.
  intros Hf. unfold get_ai_response, slot_view. step_io. rewrite Hf. step_io.
  destruct (truthy j) eqn:Ht; cbn [negb]; [|reflexivity].
  assert (Hfmt :
    (let (o, w') := format_ai_response j w in
     match o with
     | Ret a => (Ret (Response a 200), w')
     | Raise e => (Raise e, w')
     end) = (Ret (Response (JDict match effective_value j with
                                  | JDict m => formatted_view m
                                  | _ => ∅
                                  end) 200), w))
    by (by rewrite format_ai_response_run).
  split_json j; cbn [isinstance_dict py_len]; step_io;
    try (by rewrite Hfmt).
  cbn [truthy] in Ht. apply negb_true_iff, bool_decide_eq_false in Ht.
  replace (Z.of_nat (size d) =? 0) with false; [by rewrite Hfmt|].
  symmetry. apply Z.eqb_neq. intros Hsz. apply Ht, map_size_empty_iff. lia.
Qed.

Lemma get_latest_user_on_list (l : list json) (w : world) :
  files w !! DATA_FILE = Some (Text (JList l)) →
  get_latest_user w =
    (Ret match last l with
         | Some x => Response x 200
         | None => no_data_response
         end, w).
Proof.
  intros Hf. unfold get_latest_user, no_data_response. step_io. rewrite Hf. step_io.
  destruct l as [|y l]; [reflexivity|].
  cbn [truthy py_len py_getitem_last]. step_io.
  replace (0 <? Z.of_nat (length (y :: l))) with true
    by (symmetry; apply Z.ltb_lt; cbn [length]; lia).
  by destruct (last_cons_is_Some y l) as [x ->].
Qed.

Lemma debug_ai_response_cases (w : world) :
  debug_ai_response w =
    (Ret match files w !! AI_RESPONSE_FILE with
         | Some (Text j) => Response j 200
         | Some (Garbled msg) | Some (Undecodable msg) => error_response msg
         | None => error_response (str_exn (FileNotFoundError AI_RESPONSE_FILE))
         end, w).
Proof.
  unfold debug_ai_response, error_response. step_io.
  by destruct (files w !! AI_RESPONSE_FILE) as [[j | msg | msg]|].
Qed.

(** X3. On a fresh installation (neither file exists), after
    [initialize_data_files] the empty-store answers hold: GET
    /debug/latest-user answers 404 with the "no data" message, GET
    /get-ai-response answers [{}] with 200 and GET /debug/ai-response shows
    the raw [{}] with 200. *)
Theorem fresh_installation_answers (w : world) :
  files w !! DATA_FILE = None →
  files w !! AI_RESPONSE_FILE = None →
  let w1 := (initialize_data_files w).2 in
  serve DebugLatestUser w1 = (no_data_response, w1)
  ∧ serve GetAiResponse w1 = (empty_response, w1)
  ∧ serve DebugAiResponse w1 = (Response (JDict ∅) 200, w1).
Proof.
  intros Hd Ha w1. subst w1. rewrite initialize_data_files_run. cbn [snd].
  pose proof (initialized_data w) as Hd'. pose proof (initialized_slot w) as Ha'.
  rewrite Hd in Hd'. rewrite Ha in Ha'. cbn [from_option id] in *.
  unfold serve, handle.
  rewrite (get_latest_user_on_list [] _ Hd'), (get_ai_response_on_json _ _ Ha'),
    debug_ai_response_cases, Ha'.
  done.
Qed.

Lemma fresh_installation_answers_witness :
  let w1 := (initialize_data_files bare_world).2 in
  serve DebugLatestUser w1 = (no_data_response, w1)
  ∧ serve GetAiResponse w1 = (empty_response, w1)
  ∧ serve DebugAiResponse w1 = (Response (JDict ∅) 200, w1).
Proof.
  apply (fresh_installation_answers bare_world); reflexivity.
Defined.

(** X4. POST /save-ai-response accepts any JSON body, answers 200 and
    overwrites the result slot whatever it held; GET /debug/ai-response right
    after returns that very body with 200, unformatted.  The intake file is
    not touched and nothing is sent out. *)
Theorem saved_result_reads_back_raw (j : json) (w : world) :
  let w1 := (serve (SaveAiResponse j) w).2 in
  (serve (SaveAiResponse j) w).1 =
    Response (JDict (<["success" := JBool true]>
                     (<["message" := JStr "AI response saved"]> ∅))) 200
  ∧ serve DebugAiResponse w1 = (Response j 200, w1)
  ∧ files w1 !! DATA_FILE = files w !! DATA_FILE
  ∧ posts (trace w1) = posts (trace w).
Proof.
  unfold serve, handle. rewrite debug_ai_response_cases.
  unfold save_ai_response. step_io. cbn [fst snd files trace].
  rewrite lookup_insert_eq, lookup_insert_ne by done.
  repeat split. unfold posts. rewrite omap_app. cbn. by rewrite app_nil_r.
Qed.

(** X5. What GET /get-ai-response shows of a stored JSON value [j], always
    with 200 and without changing anything: [{}] when [j] is falsy (null,
    false, 0, "", [], {}); otherwise the five formatted fields of [j] if [j] is
    a mapping, or of the last element of [j] if [j] is a list whose last
    element is a mapping (even an empty one); and [{}] in every other case. *)
Theorem get_ai_response_of_stored_value (j : json) (w : world) :
  files w !! AI_RESPONSE_FILE = Some (Text j) →
  serve GetAiResponse w =
    (Response (JDict (if truthy j then
                        match effective_value j with
                        | JDict m => formatted_view m
                        | _ => ∅
                        end
                      else ∅)) 200, w).
Proof.
  intros Hf. unfold serve, handle. by rewrite (get_ai_response_on_json j w Hf).
Qed.

Lemma get_ai_response_of_stored_value_witness :
  serve GetAiResponse stale_world =
    (Response (JDict (formatted_view {["predicted_condition" := JStr "flu"]})) 200,
     stale_world).
Proof.
  rewrite (get_ai_response_of_stored_value
             (JDict {["predicted_condition" := JStr "flu"]}) stale_world);
    vm_compute; reflexivity.
Defined.

(** X6. GET /get-ai-response never shows a key other than the five formatted
    ones: in every state of the disk the answer is either 200 with a mapping
    that is empty or has exactly the five keys, or the fixed 500 error
    body. *)
Theorem get_ai_response_shows_only_formatted_keys (w : world) :
  ∃ out : gmap string json,
    (serve GetAiResponse w).1 = Response (JDict out) 200
      ∧ (out = ∅ ∨ dom out = formatted_keys)
    ∨ (serve GetAiResponse w).1 = error_response "Could not load AI response".
Proof.
  unfold serve, handle.
  destruct (files w !! AI_RESPONSE_FILE) as [[j | msg | msg]|] eqn:Hf.
  - exists (slot_view j). left. rewrite (get_ai_response_on_json j w Hf).
    split; [done|]. unfold slot_view.
    destruct (truthy j); [|by left].
    destruct (effective_value j); auto using formatted_view_dom.
  - pose proof (get_ai_response_cases w) as H. rewrite Hf in H. rewrite H.
    exists ∅. left. by split; [|left].
  - pose proof (get_ai_response_cases w) as H. rewrite Hf in H. rewrite H.
    exists ∅. by right.
  - pose proof (get_ai_response_cases w) as H. rewrite Hf in H. rewrite H.
    exists ∅. left. by split; [|left].
Qed.

(** ** GET /debug/latest-user *)

(** X7. When the intake file holds a list, GET /debug/latest-user answers
    200 with the last element of the list, or 404 with the "no data" message
    when the list is empty, and changes nothing. *)
Theorem latest_user_is_last_of_list (l : list json) (w : world) :
  files w !! DATA_FILE = Some (Text (JList l)) →
  serve DebugLatestUser w =
    (match last l with
     | Some x => Response x 200
     | None => no_data_response
     end, w).
Proof.
  intros Hf. unfold serve, handle. by rewrite (get_latest_user_on_list l w Hf).
Qed.

Lemma latest_user_is_last_of_list_witness :
  serve DebugLatestUser
        (World {[DATA_FILE := Text (JList [JInt 1; JStr "two"; JInt 3])]} []) =
    (Response (JInt 3) 200,
     World {[DATA_FILE := Text (JList [JInt 1; JStr "two"; JInt 3])]} []).
Proof.
  apply (latest_user_is_last_of_list [JInt 1; JStr "two"; JInt 3]).
  vm_compute; reflexivity.
Defined.

(** X8. Right after a persisted submission, GET /debug/latest-user answers
    200 with exactly the record that submission stored, whose [user_id] is
    the uuid drawn for it. *)
Theorem latest_user_after_submission (m : gmap string json) (e : env) (w : world) :
  intake_readable w = true →
  let w1 := (serve (Submit (JDict m) e) w).2 in
  ∃ r : gmap string json,
    serve DebugLatestUser w1 = (Response (JDict r) 200, w1)
    ∧ last (intake_list w1) = Some (JDict r)
    ∧ r !! "user_id" = Some (JStr (uuid4 e)).
Proof.
  intros Hr w1. subst w1. exists (stamp m e).
  unfold serve at 2 3 4. cbn [handle].
  rewrite (save_and_trigger_persists m e w Hr). cbn [snd].
  pose proof (after_submit_data m e w) as Hf.
  unfold serve, handle. rewrite (get_latest_user_on_list _ _ Hf), last_snoc.
  split; [done|]. split; [|apply stamp_user_id].
  unfold intake_list at 1. by rewrite Hf, last_snoc.
Qed.

Lemma latest_user_after_submission_witness :
  let e := sample_env (sample_reply 200 "OK") in
  let w1 := (serve (Submit (JDict sample_body) e) bare_world).2 in
  ∃ r : gmap string json,
    serve DebugLatestUser w1 = (Response (JDict r) 200, w1)
    ∧ last (intake_list w1) = Some (JDict r)
    ∧ r !! "user_id" = Some (JStr (uuid4 e)).
Proof.
  apply (latest_user_after_submission sample_body
           (sample_env (sample_reply 200 "OK")) bare_world).
  reflexivity.
Defined.

(** X9. When the intake file holds a non-empty JSON mapping, GET
    /debug/latest-user answers 500 with the error text [-1] (the [KeyError]
    of [data[-1]]), although a submission reads the same file as an empty log
    and succeeds. *)
Theorem latest_user_on_mapping (d : gmap string json) (w : world) :
  files w !! DATA_FILE = Some (Text (JDict d)) →
  d ≠ ∅ →
  serve DebugLatestUser w = (error_response "-1", w)
  ∧ ∀ m e, succeeded (serve (Submit (JDict m) e) w).1 = true.
Proof.
  intros Hf Hne. split.
  - unfold serve, handle, get_latest_user, error_response. step_io.
    rewrite Hf. step_io. cbn [truthy py_len py_getitem_last]. step_io.
    rewrite bool_decide_eq_false_2 by done. cbn [negb].
    replace (0 <? Z.of_nat (size d)) with true; [reflexivity|].
    symmetry. apply Z.ltb_lt.
    apply map_size_non_empty_iff in Hne. lia.
  - intros m e. unfold serve. cbn [handle].
    rewrite save_and_trigger_persists by (unfold intake_readable; by rewrite Hf).
    apply submit_response_succeeded.
Qed.

Lemma latest_user_on_mapping_witness :
  serve DebugLatestUser stale_world = (error_response "-1", stale_world)
  ∧ ∀ m e, succeeded (serve (Submit (JDict m) e) stale_world).1 = true.
Proof.
  apply (latest_user_on_mapping {["schema" := JInt 2]} stale_world).
  - vm_compute; reflexivity.
  - intros H. apply (f_equal (λ m : gmap string json, m !! "schema")) in H.
    vm_compute in H. discriminate H.
Defined.

(** ** POST /submit *)

Lemma stamp_lookup_other (m : gmap string json) (e : env) (k : string) :
  k ∉ server_fields → k ≠ "medications" → stamp m e !! k = m !! k.
Proof.
  unfold server_fields. intros Hk Hmed.
  assert (k ≠ "user_id" ∧ k ≠ "timestamp" ∧ k ≠ "server_received_at")
    as (H1 & H2 & H3) by set_solver.
  unfold stamp. case_bool_decide; by rewrite !lookup_insert_ne by done.
Qed.

(** X10. The record a persisted submission stores carries the server's
    values for [user_id], [timestamp] and [server_received_at], also when the
    body supplied its own; every field of the body other than these three and
    [medications] is stored unchanged, and the record has no field beyond
    those of the body and these four. *)
Theorem stored_record_fields (m : gmap string json) (e : env) (w : world) :
  intake_readable w = true →
  ∃ r : gmap string json,
    files (serve (Submit (JDict m) e) w).2 !! DATA_FILE =
      Some (Text (JList (intake_list w ++ [JDict r])))
    ∧ r !! "user_id" = Some (JStr (uuid4 e))
    ∧ r !! "timestamp" = Some (JStr (now_1 e))
    ∧ r !! "server_received_at" = Some (JStr (now_2 e))
    ∧ (∀ k, k ∉ server_fields → k ≠ "medications" → r !! k = m !! k)
    ∧ dom r = dom m ∪ server_fields ∪ {["medications"]}.
Proof.
  intros Hr. exists (stamp m e). unfold serve. cbn [handle].
  rewrite (save_and_trigger_persists m e w Hr). cbn [snd].
  split; [apply after_submit_data|]. split; [apply stamp_user_id|].
  split; [unfold stamp; case_bool_decide; by simplify_map_eq|].
  split; [unfold stamp; case_bool_decide; by simplify_map_eq|].
  split; [intros k; apply stamp_lookup_other|].
  unfold stamp, server_fields. case_bool_decide as Hin; rewrite !dom_insert_L.
  - apply set_eq. intros k. rewrite !elem_of_union, !elem_of_singleton.
    split; [tauto|]. intros [[? | ?] | ->]; tauto.
  - apply set_eq. intros k. rewrite !elem_of_union, !elem_of_singleton. tauto.
Qed.

Lemma stored_record_fields_witness :
  let e := sample_env (sample_reply 200 "OK") in
  ∃ r : gmap string json,
    files (serve (Submit (JDict (<["user_id" := JStr "chosen-by-client"]> sample_body)) e)
                 fresh_world).2 !! DATA_FILE = Some (Text (JList [JDict r]))
    ∧ r !! "user_id" = Some (JStr (uuid4 e))
    ∧ r !! "name" = Some (JStr "Asha").
Proof.
  intros e.
  destruct (stored_record_fields (<["user_id" := JStr "chosen-by-client"]> sample_body)
              e fresh_world) as (r & Hfile & Hid & _ & _ & Hother & _).
  - reflexivity.
  - exists r. split; [exact Hfile|]. split; [exact Hid|].
    rewrite Hother; [vm_compute; reflexivity | vm_compute; set_solver | discriminate].
Defined.


(** ** Sequences of requests, continued *)

Lemma run_app (rs1 rs2 : list request) (w : world) :
  (run (rs1 ++ rs2) w).2 = (run rs2 (run rs1 w).2).2.
Proof.
  revert w. induction rs1 as [|r rs1 IH]; intros w; [done|].
  cbn [app]. rewrite !run_cons. cbn [snd]. apply IH.
Qed.

Lemma posts_app (t1 t2 : list event) : posts (t1 ++ t2) = posts t1 ++ posts t2.
Proof. unfold posts. apply omap_app. Qed.

Lemma serve_posts (r : request) (w : world) :
  intake_readable w = true →
  posts (trace (serve r w).2) =
    posts (trace w) ++ (webhook_call <$> option_list (accepted r)).
Proof.
  intros Hread.
  destruct (serve_effect r w)
    as [(m & e & -> & _ & ->) | [(j & resp & -> & ->) | (resp & Hns & -> & Hsub)]];
    cbn [snd accepted option_list].
  - unfold after_submit. cbn [trace]. by rewrite posts_app.
  - cbn [trace]. rewrite posts_app. reflexivity.
  - assert (Hnone : accepted r = None).
    { destruct r as [j e | | | j | |]; try done. split_json j; try done.
      destruct (Hsub eq_refl) as [_ Hno]. specialize (Hno _ _ eq_refl). congruence. }
    rewrite Hnone. cbn. by rewrite app_nil_r.
Qed.

(** X12. From an intake file that submissions can read, the outbound calls
    made over any sequence of requests are exactly one call per stored
    record, in the order of the submissions, each to the fixed webhook url
    with the stored record as payload and a timeout of 30; no other request
    calls out and a rejected submission sends nothing. *)
Theorem one_webhook_call_per_stored_record (rs : list request) (w : world) :
  intake_readable w = true →
  posts (trace (run rs w).2) =
    posts (trace w) ++ (webhook_call <$> stored_records rs).
Proof.
  revert w. induction rs as [|r rs IH]; intros w Hread.
  - cbn. by rewrite app_nil_r.
  - rewrite run_cons, stored_records_cons. cbn [snd].
    destruct (serve_intake r w Hread) as (Hread' & _).
    rewrite (IH _ Hread'), (serve_posts r w Hread), fmap_app, app_assoc. done.
Qed.

Lemma one_webhook_call_per_stored_record_witness :
  posts (trace (run sample_requests bare_world).2) =
    webhook_call <$> stored_records sample_requests.
Proof.
  apply (one_webhook_call_per_stored_record sample_requests bare_world).
  reflexivity.
Defined.

Lemma serve_slot_unwritten (r : request) (w : world) :
  may_write_slot r = false →
  files (serve r w).2 !! AI_RESPONSE_FILE = files w !! AI_RESPONSE_FILE.
Proof.
  intros Hr.
  destruct (serve_effect r w)
    as [(m & e & -> & _ & _) | [(j & resp & -> & _) | (resp & _ & -> & _)]];
    done.
Qed.

Lemma run_slot_unwritten (rs : list request) :
  ∀ w : world,
    forallb (λ r, negb (may_write_slot r)) rs = true →
    files (run rs w).2 !! AI_RESPONSE_FILE = files w !! AI_RESPONSE_FILE.
Proof.
  induction rs as [|r rs IH]; intros w Hrs; [done|].
  cbn [forallb] in Hrs. apply andb_true_iff in Hrs as [Hr Hrs].
  rewrite run_cons. cbn [snd]. rewrite (IH _ Hrs).
  apply serve_slot_unwritten. by destruct (may_write_slot r).
Qed.

(** X13. The result slot keeps no history: after any requests, then a POST
    /save-ai-response with body [j], then any requests that are neither a
    save nor a submission with a mapping body, the slot holds exactly [j] and
    GET /debug/ai-response returns [j] with 200, whatever was stored or
    submitted before. *)
Theorem slot_holds_latest_saved_result (rs rs' : list request) (j : json)
    (w : world) :
  forallb (λ r, negb (may_write_slot r)) rs' = true →
  let w' := (run (rs ++ SaveAiResponse j :: rs') w).2 in
  files w' !! AI_RESPONSE_FILE = Some (Text j)
  ∧ serve DebugAiResponse w' = (Response j 200, w').
Proof.
  intros Hrs' w'.
  assert (Hslot : files w' !! AI_RESPONSE_FILE = Some (Text j)).
  { subst w'. rewrite run_app, run_cons. cbn [snd].
    rewrite (run_slot_unwritten rs' _ Hrs').
    unfold serve. cbn [handle].
    destruct (save_ai_response_run j (run rs w).2) as [resp ->].
    cbn [snd files]. apply lookup_insert_eq. }
  split; [done|].
  unfold serve, handle. by rewrite debug_ai_response_cases, Hslot.
Qed.

Lemma slot_holds_latest_saved_result_witness :
  let w' := (run (sample_requests
                  ++ SaveAiResponse (JList [JInt 1]) :: [GetAiResponse; Submit JNull
                       (sample_env (sample_reply 200 "OK"))]) stale_world).2 in
  files w' !! AI_RESPONSE_FILE = Some (Text (JList [JInt 1]))
  ∧ serve DebugAiResponse w' = (Response (JList [JInt 1]) 200, w').
Proof.
  apply (slot_holds_latest_saved_result sample_requests
           [GetAiResponse; Submit JNull (sample_env (sample_reply 200 "OK"))]
           (JList [JInt 1]) stale_world).
  reflexivity.
Defined.

Lemma serve_expected_effects (r : request) (w : world) :
  ∃ t : list event, trace (serve r w).2 = trace w ++ t ∧ Forall expected_effect t.
Proof.
  destruct (serve_effect r w)
    as [(m & e & -> & _ & ->) | [(j & resp & -> & ->) | (resp & _ & -> & _)]];
    cbn [snd].
  - unfold after_submit. cbn [trace]. eexists. split; [reflexivity|].
    constructor; [left; by split|].
    constructor; [by right|].
    constructor; [by split|]. constructor.
  - cbn [trace]. eexists. split; [reflexivity|].
    constructor; [by right | constructor].
  - exists []. split; [by rewrite app_nil_r | constructor].
Qed.

(** X14. Whatever the requests and whatever the state of the disk, the
    effects of the server are of three kinds only: a JSON list written to the
    intake file, a value written to the result slot, and a call to the fixed
    webhook url with a timeout of 30.  It never writes a non-list to the
    intake file, never writes another file, never calls another url; and the
    trace only grows. *)
Theorem server_effects_are_confined (rs : list request) (w : world) :
  ∃ t : list event,
    trace (run rs w).2 = trace w ++ t ∧ Forall expected_effect t.
Proof.
  revert w. induction rs as [|r rs IH]; intros w.
  - exists []. split; [cbn; by rewrite app_nil_r | constructor].
  - rewrite run_cons. cbn [snd].
    destruct (serve_expected_effects r w) as (t1 & Ht1 & Hok1).
    destruct (IH (serve r w).2) as (t2 & Ht2 & Hok2).
    exists (t1 ++ t2). split; [by rewrite Ht2, Ht1, app_assoc|].
    by apply Forall_app.
Qed.

(** X15. The four GET handlers never write: in every state of the disk,
    also when a file is missing or unreadable, they leave both files and the
    trace exactly as they were. *)
Theorem get_requests_change_nothing (r : request) (w : world) :
  is_get r = true → (serve r w).2 = w.
Proof.
  intros Hr.
  destruct (serve_effect r w)
    as [(m & e & -> & _ & _) | [(j & resp & -> & _) | (resp & _ & -> & _)]];
    done.
Qed.

Lemma get_requests_change_nothing_witness :
  (serve DebugLatestUser undecodable_world).2 = undecodable_world
  ∧ (serve GetAiResponse undecodable_world).2 = undecodable_world.
Proof.
  split.
  - apply (get_requests_change_nothing DebugLatestUser undecodable_world). reflexivity.
  - apply (get_requests_change_nothing GetAiResponse undecodable_world). reflexivity.
Defined.

(** ** The formatter and the raw view *)

Lemma formatted_view_again (m : gmap string json) :
  formatted_view (formatted_view m) = formatted_view m.
Proof.
  unfold formatted_view at 1.
  replace (formatted_view m !! "predicted_condition") with
    (Some (from_option id (JStr "Analysis pending...") (m !! "predicted_condition")))
    by (unfold formatted_view; by simplify_map_eq).
  replace (formatted_view m !! "medication_alerts") with
    (Some (from_option id (JList []) (m !! "medication_alerts")))
    by (unfold formatted_view; by simplify_map_eq).
  replace (formatted_view m !! "home_remedies") with
    (Some (from_option id (JList []) (m !! "home_remedies")))
    by (unfold formatted_view; by simplify_map_eq).
  replace (formatted_view m !! "diet_plan") with
    (Some (from_option id (JList []) (m !! "diet_plan")))
    by (unfold formatted_view; by simplify_map_eq).
  replace (formatted_view m !! "youtube_videos") with
    (Some (from_option id (JList []) (m !! "youtube_videos")))
    by (unfold formatted_view; by simplify_map_eq).
  reflexivity.
Qed.

(** X16. Formatting is stable on what it produces: a non-empty result of
    [format_ai_response], formatted again, is returned unchanged (so posting
    a formatted answer back to the server reads back the same). *)
Theorem format_ai_response_stable (raw : json) (out : gmap string json)
    (w : world) :
  format_ai_response raw w = (Ret (JDict out), w) →
  out ≠ ∅ →
  format_ai_response (JDict out) w = (Ret (JDict out), w).
Proof.
  rewrite !format_ai_response_run. cbn [effective_value].
  intros [= <-] Hne.
  destruct (effective_value raw) as [| | | | | |m]; [done ..|].
  by rewrite formatted_view_again.
Qed.

Lemma format_ai_response_stable_witness :
  format_ai_response
    (JDict (formatted_view {["predicted_condition" := JStr "flu"]})) bare_world =
  (Ret (JDict (formatted_view {["predicted_condition" := JStr "flu"]})), bare_world).
Proof.
  apply (format_ai_response_stable
           (JList [JInt 0; JDict {["predicted_condition" := JStr "flu"]}])).
  - reflexivity.
  - intros H.
    apply (f_equal (λ m : gmap string json, m !! "diet_plan")) in H.
    vm_compute in H. discriminate H.
Defined.

(** X17. GET /debug/ai-response shows the stored value as it is, with 200,
    and surfaces read failures: a missing result slot file gives 500 with the
    text of the [FileNotFoundError], text that is not JSON gives 500 with the
    decoder's message; in those same two states GET /get-ai-response answers
    [{}] with 200. *)
Theorem debug_ai_response_is_raw (w : world) :
  (∀ j, files w !! AI_RESPONSE_FILE = Some (Text j) →
     serve DebugAiResponse w = (Response j 200, w))
  ∧ (files w !! AI_RESPONSE_FILE = None →
     serve DebugAiResponse w =
       (error_response
          "[Errno 2] No such file or directory: 'ai_recommendations.json'", w)
     ∧ serve GetAiResponse w = (empty_response, w))
  ∧ (∀ msg, files w !! AI_RESPONSE_FILE = Some (Garbled msg) →
     serve DebugAiResponse w = (error_response msg, w)
     ∧ serve GetAiResponse w = (empty_response, w)).
Proof.
  pose proof (get_ai_response_cases w) as Hget.
  unfold serve, handle. rewrite debug_ai_response_cases.
  split; [by intros j ->|].
  split; [intros Hf | intros msg Hf]; rewrite Hf in *; by rewrite Hget.
Qed.

(** ** An intake file that cannot be decoded *)

Lemma serve_undecodable (r : request) (w : world) (msg : string) :
  files w !! DATA_FILE = Some (Undecodable msg) →
  files (serve r w).2 !! DATA_FILE = Some (Undecodable msg)
  ∧ is_submit r && succeeded (serve r w).1 = false
  ∧ posts (trace (serve r w).2) = posts (trace w).
Proof.
  intros Hf.
  destruct (serve_effect r w)
    as [(m & e & -> & Hr & _) | [(j & resp & -> & ->) | (resp & _ & -> & Hsub)]];
    cbn [fst snd].
  - unfold intake_readable in Hr. by rewrite Hf in Hr.
  - cbn [files trace is_submit andb].
    rewrite lookup_insert_ne by done.
    rewrite posts_app. cbn. by rewrite app_nil_r.
  - split; [done|]. split; [|done].
    destruct (is_submit r) eqn:Hs; [|done].
    by destruct (Hsub eq_refl) as [[d ->] _].
Qed.

(** X18. When the bytes of the intake file are not UTF-8, no sequence of
    requests repairs it: every submission is answered 500, the file stays as
    it is, and no webhook call is made.  (Text that is merely not JSON is
    different: the first submission replaces it.) *)
Theorem undecodable_intake_is_never_repaired (rs : list request) (w : world)
    (msg : string) :
  files w !! DATA_FILE = Some (Undecodable msg) →
  files (run rs w).2 !! DATA_FILE = Some (Undecodable msg)
  ∧ successful_submissions rs (run rs w).1 = 0%nat
  ∧ posts (trace (run rs w).2) = posts (trace w).
Proof.
  revert w. induction rs as [|r rs IH]; intros w Hf; [done|].
  rewrite run_cons. cbn [fst snd successful_submissions].
  destruct (serve_undecodable r w msg Hf) as (Hf' & -> & Hposts).
  destruct (IH _ Hf') as (Hfile & -> & Hposts').
  by rewrite Hposts', Hposts.
Qed.

Lemma undecodable_intake_is_never_repaired_witness :
  files (run sample_requests undecodable_world).2 !! DATA_FILE =
    files undecodable_world !! DATA_FILE
  ∧ successful_submissions sample_requests (run sample_requests undecodable_world).1
    = 0%nat
  ∧ posts (trace (run sample_requests undecodable_world).2) = [].
Proof.
  destruct (undecodable_intake_is_never_repaired sample_requests undecodable_world
              "'utf-8' codec can't decode byte 0xff in position 0: invalid start byte")
    as (Hfile & Hcount & Hposts).
  - reflexivity.
  - split; [by rewrite Hfile|]. split; [exact Hcount | exact Hposts].
Defined.
